(** * Feed discovery resolver: packages/api/src/resolvers/discover_feeds/add.ts

    A shallow embedding of [addDiscoverFeedResolver] and its helpers.

    - JavaScript values that flow through the resolver (the parsed XML tree,
      the feed objects, query parameters) are values of [Js.JsVal]; property
      access, truthiness, [??] and [||] follow the language.
    - The relational store is two tables of rows; the four SQL statements of
      the file are the constructors of [Db.Query].
    - The collaborators the file does not define (connection pool, store
      failures, axios, the XML parser, uuid, pubsub) are the fields of a
      [World]; every theorem quantifies over it.
    - Effects are threaded through a state-and-exception monad [M]: a thrown
      JavaScript exception keeps the store and the effect trace as they were
      at the throw. *)

From Stdlib Require Import String Ascii List ZArith Bool Lia.
Import ListNotations.
Set Warnings "-register-all".
Local Open Scope string_scope.
Local Open Scope list_scope.

(** ** JavaScript values *)

Module Js.

Inductive JsVal : Type :=
| JUndefined
| JNull
| JBool (b : bool)
| JNum (num : Z) (den : positive)   (* the finite number num/den *)
| JStr (s : string)
| JArr (items : list JsVal)
| JObj (props : list (string * JsVal)).

(** Exceptions that can be thrown inside the resolver. *)
Inductive Exn : Type :=
| TypeError                 (* property read on undefined or null *)
| External (tag : string).  (* thrown by a collaborator *)

(** ToBoolean. *)
Definition truthy (v : JsVal) : bool :=
  match v with
  | JUndefined | JNull => false
  | JBool b => b
  | JNum n _ => negb (n =? 0)%Z
  | JStr s => negb (s =? "")
  | JArr _ | JObj _ => true
  end.

Definition nullish (v : JsVal) : bool :=
  match v with
  | JUndefined | JNull => true
  | _ => false
  end.

(** [a ?? b] *)
Definition coalesce (a b : JsVal) : JsVal := if nullish a then b else a.

Fixpoint lookup (k : string) (props : list (string * JsVal)) : JsVal :=
  match props with
  | [] => JUndefined
  | (k', v) :: rest => if k' =? k then v else lookup k rest
  end.

(** [v.k] for the keys this file reads (channel, title, description, image,
    url, subtitle, icon, rss, rdf:RDF, feed, id, link, type): none of them is
    a built-in property of strings, numbers, booleans or arrays, so on those
    the read yields undefined; on undefined and null it throws. *)
Definition get (v : JsVal) (k : string) : Exn + JsVal :=
  match v with
  | JUndefined | JNull => inl TypeError
  | JObj props => inr (lookup k props)
  | _ => inr JUndefined
  end.

(** [v?.k] *)
Definition opt_get (v : JsVal) (k : string) : Exn + JsVal :=
  if nullish v then inr JUndefined else get v k.

(** [{ ...o, k: v }] for an object [o]: an own key [k] keeps its place and
    takes the new value, otherwise the property is added last.  (Spreading
    undefined, null, a number or a boolean copies nothing.) *)
Fixpoint has_key (k : string) (props : list (string * JsVal)) : bool :=
  match props with
  | [] => false
  | (k', _) :: rest => (k' =? k) || has_key k rest
  end.

Definition spread_with (o : JsVal) (k : string) (v : JsVal) : JsVal :=
  match o with
  | JObj props =>
      if has_key k props
      then JObj (map (fun p => if fst p =? k then (k, v) else p) props)
      else JObj (props ++ [(k, v)])
  | _ => JObj [(k, v)]
  end.

(** [String.prototype.includes] *)
Fixpoint includes (needle s : string) : bool :=
  if prefix needle s then true
  else match s with
       | EmptyString => false
       | String _ s' => includes needle s'
       end.

(** StringToNumber on the texts that reach it here: the empty text is 0, a
    run of decimal digits is its value, and a text holding any other
    character (such as the bracket of "[object Object]") is NaN, written
    [None].  Fractions, exponents and radix prefixes are not recognised; no
    such text is produced by [array_to_primitive] on row objects. *)
Definition digit_of (c : ascii) : option Z :=
  let n := Z.of_nat (nat_of_ascii c) in
  if ((48 <=? n) && (n <=? 57))%Z then Some (n - 48)%Z else None.

Fixpoint digits_value (acc : Z) (s : string) : option Z :=
  match s with
  | EmptyString => Some acc
  | String c s' =>
      match digit_of c with
      | Some d => digits_value (10 * acc + d)%Z s'
      | None => None
      end
  end.

Definition StringToNumber (s : string) : option Z := digits_value 0 s.

(** A row of a query result is a plain object. *)
Definition Row : Type := list (string * JsVal).

(** ToPrimitive of an array of rows: [join(",")], where every plain object
    prints as "[object Object]". *)
Definition array_to_primitive (rows : list Row) : string :=
  String.concat "," (map (fun _ : Row => "[object Object]") rows).

(** [rows > n] for an array [rows] and a number [n]: the array is converted
    to a primitive, then to a number; a comparison with NaN is false. *)
Definition array_gt (rows : list Row) (n : Z) : bool :=
  match StringToNumber (array_to_primitive rows) with
  | Some m => (m >? n)%Z
  | None => false
  end.

End Js.
Import Js.

(** ** The pure error monad, for expressions that may throw *)

Definition ebind {A B : Type} (m : Exn + A) (f : A -> Exn + B) : Exn + B :=
  match m with
  | inl e => inl e
  | inr a => f a
  end.

Notation "'let?' x ':=' m 'in' k" := (ebind m (fun x => k))
  (at level 10, x name, m at level 100, k at level 200).

(** [a || b], where [b] is evaluated only when [a] is falsy. *)
Definition js_or (a : JsVal) (b : Exn + JsVal) : Exn + JsVal :=
  if truthy a then inr a else b.

(** ** The store *)

Module Db.

Record FeedRow : Type := mkFeedRow {
  fr_id : JsVal;
  fr_title : JsVal;
  fr_link : JsVal;
  fr_image : JsVal;
  fr_type : JsVal;
  fr_description : JsVal }.

Record SubscriptionRow : Type := mkSubscriptionRow {
  sr_feed_id : JsVal;
  sr_user_id : JsVal }.

Record Store : Type := mkStore {
  discover_feed : list FeedRow;
  discover_feed_subscription : list SubscriptionRow }.

(** The four statements of add.ts with their parameters. *)
Inductive Query : Type :=
| SelectFeedIdByLink (link : JsVal)                        (* line 169 *)
| SelectSubscription (userId feedId : JsVal)               (* line 68 *)
| InsertSubscription (feedId userId : JsVal)               (* lines 81, 147 *)
| InsertFeed (id title link image type description : JsVal). (* line 135 *)

(** Equality of a text column with a text parameter. *)
Definition text_eq (a b : JsVal) : bool :=
  match a, b with
  | JStr x, JStr y => x =? y
  | _, _ => false
  end.

Definition feeds_with_link (link : JsVal) (s : Store) : list FeedRow :=
  filter (fun r => text_eq (fr_link r) link) (discover_feed s).

Definition subscriptions_of (userId feedId : JsVal) (s : Store)
  : list SubscriptionRow :=
  filter (fun r => text_eq (sr_user_id r) userId && text_eq (sr_feed_id r) feedId)
         (discover_feed_subscription s).

Definition id_row (r : FeedRow) : Row := [("id", fr_id r)].

Definition subscription_row (r : SubscriptionRow) : Row :=
  [("feed_id", sr_feed_id r); ("user_id", sr_user_id r)].

(** What a statement returns (its [rows]) and the store after it. *)
Definition exec (q : Query) (s : Store) : list Row * Store :=
  match q with
  | SelectFeedIdByLink link => (map id_row (feeds_with_link link s), s)
  | SelectSubscription userId feedId =>
      (map subscription_row (subscriptions_of userId feedId s), s)
  | InsertSubscription feedId userId =>
      ([], mkStore (discover_feed s)
                   (discover_feed_subscription s
                      ++ [mkSubscriptionRow feedId userId]))
  | InsertFeed id title link image type description =>
      ([], mkStore (discover_feed s
                      ++ [mkFeedRow id title link image type description])
                   (discover_feed_subscription s))
  end.

End Db.
Import Db.

(** ** Results, effects and collaborators *)

(** AddDiscoverFeedErrorCode: the three codes add.ts uses. *)
Inductive AddDiscoverFeedErrorCode : Type := BadRequest | Conflict | Unauthorized.

(** AddDiscoverFeedSuccess | AddDiscoverFeedError, tagged by [__typename]. *)
Inductive Result : Type :=
| AddDiscoverFeedSuccess (feed : JsVal)
| AddDiscoverFeedError (errorCodes : list AddDiscoverFeedErrorCode).

Definition is_success (r : Result) : bool :=
  match r with
  | AddDiscoverFeedSuccess _ => true
  | AddDiscoverFeedError _ => false
  end.

Inductive EntityType : Type := RSS_FEED.

(** An axios response: the body and the declared content type, if any. *)
Record Response : Type := mkResponse {
  data : string;
  content_type : option string }.

(** Every call on a collaborator, in program order; a call is recorded when
    it is made, whether or not it then throws. *)
Inductive Event : Type :=
| EvConnect
| EvQuery (q : Query)
| EvRelease
| EvGet (url : string)
| EvParse (content : string)
| EvEntityCreated (kind : EntityType) (payload : JsVal) (ownerId : string)
| EvLogError (msg : string) (e : Exn).

(** The collaborators during one call of the resolver.  [None] in a
    [*_throws] field means that the call returns normally. *)
Record World : Type := mkWorld {
  connect_throws : option Exn;
  query_throws : Query -> Store -> option Exn;
  release_throws : option Exn;
  axios_get : string -> Exn + Response;
  parse : string -> Exn + JsVal;
  v4 : string;
  entityCreated_throws : EntityType -> JsVal -> string -> option Exn }.

Record Sys : Type := mkSys {
  store : Store;
  trace : list Event }.

Definition M (A : Type) : Type := Sys -> (Exn + A) * Sys.

Definition ret {A : Type} (a : A) : M A := fun s => (inr a, s).

Definition bind {A B : Type} (m : M A) (f : A -> M B) : M B :=
  fun s =>
    match m s with
    | (inl e, s') => (inl e, s')
    | (inr a, s') => f a s'
    end.

Definition liftE {A : Type} (m : Exn + A) : M A := fun s => (m, s).

Definition emit (ev : Event) : M unit :=
  fun s => (inr tt, mkSys (store s) (trace s ++ [ev])).

Definition throw_if (oe : option Exn) : M unit :=
  fun s =>
    match oe with
    | Some e => (inl e, s)
    | None => (inr tt, s)
    end.

(** [try { body } catch (error) { handler }] *)
Definition try_catch {A : Type} (body : M A) (handler : Exn -> M A) : M A :=
  fun s =>
    match body s with
    | (inl e, s') => handler e s'
    | (inr a, s') => (inr a, s')
    end.

Notation "x <- m ;; k" := (bind m (fun x => k))
  (at level 61, m at next level, right associativity).
Notation "m ;;; k" := (bind m (fun _ => k))
  (at level 61, right associativity).

Section Resolver.

Variable w : World.

(** appDataSource.createQueryRunner().connect() *)
Definition connect : M unit :=
  emit EvConnect ;;; throw_if (connect_throws w).

(** queryRunner.query(sql, params) *)
Definition query (q : Query) : M (list Row) :=
  emit (EvQuery q) ;;;
  fun s =>
    match query_throws w q (store s) with
    | Some e => (inl e, s)
    | None => let (rows, st) := exec q (store s) in (inr rows, mkSys st (trace s))
    end.

(** queryRunner.release() *)
Definition release : M unit :=
  emit EvRelease ;;; throw_if (release_throws w).

(** pubsub.entityCreated(kind, payload, ownerId) *)
Definition entityCreated (kind : EntityType) (payload : JsVal) (ownerId : string)
  : M unit :=
  emit (EvEntityCreated kind payload ownerId) ;;;
  throw_if (entityCreated_throws w kind payload ownerId).

(** log.error(msg, error); the logger returns normally. *)
Definition log_error (msg : string) (e : Exn) : M unit :=
  emit (EvLogError msg e).

(** Lines 28-41. *)
Definition extractAtomData (url : string) (feed : JsVal) : Exn + JsVal :=
  let? subtitle := get feed "subtitle" in
  let? title := get feed "title" in
  let? icon := get feed "icon" in
  inr (JObj [("description", coalesce subtitle (JStr ""));
             ("title", coalesce title (JStr url));
             ("image", icon);
             ("link", JStr url);
             ("type", JStr "atom")]).

(** Lines 43-59. *)
Definition extractRssData (url : string) (parsedXml : JsVal) : Exn + JsVal :=
  let? channel := get parsedXml "channel" in
  let? description := opt_get channel "description" in
  let? title := get channel "title" in
  let? image := get parsedXml "image" in
  let? image_url := opt_get image "url" in
  inr (JObj [("description", coalesce description (JStr ""));
             ("title", coalesce title (JStr url));
             ("image", image_url);
             ("link", JStr url);
             ("type", JStr "rss")]).

(** Lines 61-89. *)
Definition handleExistingSubscription (feed : JsVal) (userId : string)
  : M Result :=
  feedId <- liftE (get feed "id") ;;
  existingSubscription <- query (SelectSubscription (JStr userId) feedId) ;;
  if array_gt existingSubscription 1 then
    release ;;;
    ret (AddDiscoverFeedError [Conflict])
  else
    feedId' <- liftE (get feed "id") ;;
    query (InsertSubscription feedId' (JStr userId)) ;;;
    ret (AddDiscoverFeedSuccess feed).

(** Lines 101-104. *)
Definition isXML (contentType : option string) : bool :=
  match contentType with
  | None => false
  | Some ct =>
      includes "text/rss+xml" ct
      || includes "text/atom+xml" ct
      || includes "application/xml" ct
  end.

(** Line 114: [!parsedFeed?.rss && !parsedFeed['rdf:RDF'] && !parsedFeed['feed']]. *)
Definition noFeedRoot (parsedFeed : JsVal) : Exn + bool :=
  let? rss := opt_get parsedFeed "rss" in
  if truthy rss then inr false else
  let? rdf := get parsedFeed "rdf:RDF" in
  if truthy rdf then inr false else
  let? feed := get parsedFeed "feed" in
  inr (negb (truthy feed)).

(** Lines 121-124: the ternary that picks the extractor. *)
Definition extractFeed (url : string) (parsedFeed : JsVal) : Exn + JsVal :=
  let? rss := opt_get parsedFeed "rss" in
  let? isRss := js_or rss (get parsedFeed "rdf:RDF") in
  if truthy isRss then
    let? rss' := get parsedFeed "rss" in
    let? parsedXml := js_or rss' (get parsedFeed "rdf:RDF") in
    extractRssData url parsedXml
  else
    let? feed := get parsedFeed "feed" in
    extractAtomData url feed.

(** Lines 91-156. *)
Definition addNewSubscription (url : string) (userId : string) : M Result :=
  emit (EvGet url) ;;;
  response <- liftE (axios_get w url) ;;
  let content := data response in
  let contentType := content_type response in
  if negb (isXML contentType) then
    ret (AddDiscoverFeedError [BadRequest])
  else
    emit (EvParse content) ;;;
    parsedFeed <- liftE (parse w content) ;;
    notFeed <- liftE (noFeedRoot parsedFeed) ;;
    if (notFeed : bool) then
      ret (AddDiscoverFeedError [BadRequest])
    else
      feed <- liftE (extractFeed url parsedFeed) ;;
      title <- liftE (get feed "title") ;;
      if negb (truthy title) then
        ret (AddDiscoverFeedError [BadRequest])
      else
        let discoverFeedId := JStr (v4 w) in
        link <- liftE (get feed "link") ;;
        image <- liftE (get feed "image") ;;
        type <- liftE (get feed "type") ;;
        description <- liftE (get feed "description") ;;
        query (InsertFeed discoverFeedId title link image type description) ;;;
        query (InsertSubscription discoverFeedId (JStr userId)) ;;;
        release ;;;
        ret (AddDiscoverFeedSuccess (spread_with feed "id" discoverFeedId)).

(** Lines 163-190: the body of the [try] block. *)
Definition resolverBody (url : string) (uid : string) : M Result :=
  connect ;;;
  existingFeed <- query (SelectFeedIdByLink (JStr url)) ;;
  match existingFeed with
  | row0 :: _ => handleExistingSubscription (JObj row0) uid
  | [] =>
      result <- addNewSubscription url uid ;;
      match result with
      | AddDiscoverFeedSuccess feed =>
          entityCreated RSS_FEED
            (JObj [("feed", feed); ("libraryItemId", JStr "NA")]) uid ;;;
          ret result
      | AddDiscoverFeedError _ => ret result
      end
  end.

(** Lines 158-199.  The value is [inr result] when the resolver returns and
    [inl e] when it throws to its caller. *)
Definition addDiscoverFeedResolver (url : string) (uid : string) : M Result :=
  try_catch (resolverBody url uid)
    (fun error =>
       log_error "Error Getting Discover Articles" error ;;;
       ret (AddDiscoverFeedError [Unauthorized])).

End Resolver.

(** ** Sequences of calls *)

Record Call : Type := mkCall {
  call_world : World;
  call_url : string;
  call_uid : string }.

Definition run_call (c : Call) (s : Sys) : (Exn + Result) * Sys :=
  addDiscoverFeedResolver (call_world c) (call_url c) (call_uid c) s.

Fixpoint run_calls (cs : list Call) (s : Sys) : Sys :=
  match cs with
  | [] => s
  | c :: rest => run_calls rest (snd (run_call c s))
  end.

(** ** Vocabulary of the statements *)

(** The canonical metadata record {description, title, image, link, type}. *)
Definition metadata (description title image : JsVal) (url type : string)
  : JsVal :=
  JObj [("description", description); ("title", title); ("image", image);
        ("link", JStr url); ("type", JStr type)].

(** [v.k] where undefined stands for a read that is skipped by [?.]. *)
Definition field (v : JsVal) (k : string) : JsVal :=
  match opt_get v k with
  | inr x => x
  | inl _ => JUndefined
  end.

Definition log_message : string := "Error Getting Discover Articles".

Definition in_vocabulary (r : Result) : Prop :=
  is_success r = true
  \/ r = AddDiscoverFeedError [BadRequest]
  \/ r = AddDiscoverFeedError [Conflict]
  \/ r = AddDiscoverFeedError [Unauthorized].

(** The lookup of line 168 is reached and finds no feed row for [url]. *)
Definition new_feed_path (w : World) (url : string) (s : Sys) : Prop :=
  connect_throws w = None
  /\ query_throws w (SelectFeedIdByLink (JStr url)) (store s) = None
  /\ feeds_with_link (JStr url) (store s) = [].

(** The store collaborator never throws during the call. *)
Definition calm_store (w : World) : Prop :=
  connect_throws w = None
  /\ (forall q st, query_throws w q st = None)
  /\ release_throws w = None.

Definition calm_pubsub (w : World) : Prop :=
  forall kind payload owner, entityCreated_throws w kind payload owner = None.

(** The trace of a call on the new-feed path up to and including the fetch,
    and up to and including the parse. *)
Definition fetched (s : Sys) (url : string) : list Event :=
  trace s ++ [EvConnect; EvQuery (SelectFeedIdByLink (JStr url)); EvGet url].

Definition parsed (s : Sys) (url : string) (response : Response) : list Event :=
  fetched s url ++ [EvParse (data response)].

(** Number of Feed rows whose link is [L]. *)
Definition feed_rows (L : string) (st : Store) : nat :=
  length (feeds_with_link (JStr L) st).

Definition one_feed_per_link (st : Store) : Prop :=
  forall L, feed_rows L st <= 1.

(** A declared content type that indicates rss+xml, atom+xml or plain xml. *)
Definition indicates_xml (contentType : option string) : bool :=
  match contentType with
  | None => false
  | Some ct => includes "rss+xml" ct || includes "atom+xml" ct || includes "xml" ct
  end.

(** A root element is present when the parsed document has its key. *)
Definition root_present (roots : list (string * JsVal)) (k : string) : bool :=
  has_key k roots.

(** What lines 114 and 122 test: the value under the root's key is truthy.
    An element with children, attributes or text passes; an element with
    none of them parses to the empty text and does not. *)
Definition root_truthy (roots : list (string * JsVal)) (k : string) : bool :=
  truthy (lookup k roots).

(** The entityCreated calls of a trace. *)
Definition is_publish (ev : Event) : bool :=
  match ev with
  | EvEntityCreated _ _ _ => true
  | _ => false
  end.

Definition published (tr : list Event) : list Event := filter is_publish tr.

Definition discovery_payload (feed : JsVal) : JsVal :=
  JObj [("feed", feed); ("libraryItemId", JStr "NA")].

Definition discovery_event (feed : JsVal) (uid : string) : Event :=
  EvEntityCreated RSS_FEED (discovery_payload feed) uid.

(** The RSS record as the specification words it, for comparison with
    [extractRssData]: the image is read at channel.image.url. *)
Definition spec_rss_metadata (url : string) (parsedXml : JsVal) : JsVal :=
  let channel := field parsedXml "channel" in
  metadata (coalesce (field channel "description") (JStr ""))
           (coalesce (field channel "title") (JStr url))
           (field (field channel "image") "url") url "rss".

(** The texts of lines 102-104, one of which the content type must include. *)
Definition accepted_content_types : list string :=
  ["text/rss+xml"; "text/atom+xml"; "application/xml"].

(** The log.error calls of a trace. *)
Definition is_log (ev : Event) : bool :=
  match ev with
  | EvLogError _ _ => true
  | _ => false
  end.

Definition logged (tr : list Event) : list Event := filter is_log tr.

(** The events a call may cause while it only joins a known feed: the
    connection, the two SELECTs, the subscription INSERT and the error log. *)
Definition join_event (ev : Event) : bool :=
  match ev with
  | EvConnect => true
  | EvQuery (SelectFeedIdByLink _) => true
  | EvQuery (SelectSubscription _ _) => true
  | EvQuery (InsertSubscription _ _) => true
  | EvLogError _ _ => true
  | _ => false
  end.

(** The Feed row that line 135 inserts for an extracted record. *)
Definition feed_row_of (w : World) (description title image : JsVal)
    (url type : string) : FeedRow :=
  mkFeedRow (JStr (v4 w)) title (JStr url) image (JStr type) description.

(** The feed a success of the new-feed path carries (line 154). *)
Definition feed_with_id (w : World) (description title image : JsVal)
    (url type : string) : JsVal :=
  JObj [("description", description); ("title", title); ("image", image);
        ("link", JStr url); ("type", JStr type); ("id", JStr (v4 w))].

(** The statement of line 135 that inserts [row]. *)
Definition insert_of (row : FeedRow) : Query :=
  InsertFeed (fr_id row) (fr_title row) (fr_link row) (fr_image row)
             (fr_type row) (fr_description row).

Definition with_feed_row (st : Store) (row : FeedRow) : Store :=
  mkStore (discover_feed st ++ [row]) (discover_feed_subscription st).

Definition with_subscription (st : Store) (feedId userId : JsVal) : Store :=
  mkStore (discover_feed st)
          (discover_feed_subscription st ++ [mkSubscriptionRow feedId userId]).

(** ** Sample inputs *)

Module Sample.

Definition url : string := "https://example.org/feed".
Definition uid : string := "user-1".

(** Collaborators that never throw: every fetch answers [resp], the parser
    answers [tree], uuid answers "feed-1". *)
Definition calm (resp : Response) (tree : JsVal) : World :=
  mkWorld None (fun _ _ => None) None
          (fun _ => inr resp) (fun _ => inr tree) "feed-1" (fun _ _ _ => None).

(** The same, with a pubsub whose entityCreated throws. *)
Definition pubsub_down (resp : Response) (tree : JsVal) : World :=
  mkWorld None (fun _ _ => None) None
          (fun _ => inr resp) (fun _ => inr tree) "feed-1"
          (fun _ _ _ => Some (External "pubsub")).

Definition daily_xml : string :=
  "<rss><channel><title>Daily</title><description>News</description></channel></rss>".

(** What the parser of lines 17-22 yields on [daily_xml]. *)
Definition daily_tree : JsVal :=
  JObj [("rss", JObj [("channel", JObj [("title", JStr "Daily");
                                        ("description", JStr "News")])])].

Definition daily_feed : JsVal :=
  JObj [("description", JStr "News"); ("title", JStr "Daily");
        ("image", JUndefined); ("link", JStr url); ("type", JStr "rss");
        ("id", JStr "feed-1")].

Definition daily_row : FeedRow :=
  mkFeedRow (JStr "feed-1") (JStr "Daily") (JStr url) JUndefined (JStr "rss")
            (JStr "News").

Definition subscription : SubscriptionRow :=
  mkSubscriptionRow (JStr "feed-1") (JStr uid).

(** An Atom document with an empty title element. *)
Definition untitled_atom_xml : string :=
  "<feed xmlns='http://www.w3.org/2005/Atom'><title></title></feed>".

Definition untitled_atom_tree : JsVal :=
  JObj [("feed", JObj [("title", JStr "");
                       ("@_xmlns", JStr "http://www.w3.org/2005/Atom")])].

(** An RSS 2.0 root whose channel carries its image. *)
Definition logo_root : JsVal :=
  JObj [("channel", JObj [("title", JStr "Daily");
                          ("image", JObj [("url", JStr "https://example.org/logo.png")])])].

Definition xml_response (body : string) : Response :=
  mkResponse body (Some "application/xml").

Definition html_response (body : string) : Response :=
  mkResponse body (Some "text/html").

Definition empty : Sys := mkSys (mkStore [] []) [].

(** The feed is known and the user holds no, or already two, subscriptions. *)
Definition known : Sys := mkSys (mkStore [daily_row] []) [].

Definition twice_subscribed : Sys :=
  mkSys (mkStore [daily_row] [subscription; subscription]) [].

(** A store whose subscription INSERT throws, one whose release throws, and
    one that hands out no connection. *)
Definition subscription_insert_fails (resp : Response) (tree : JsVal) : World :=
  mkWorld None
          (fun q _ => match q with
                      | InsertSubscription _ _ => Some (External "store")
                      | _ => None
                      end)
          None (fun _ => inr resp) (fun _ => inr tree) "feed-1"
          (fun _ _ _ => None).

Definition release_fails (resp : Response) (tree : JsVal) : World :=
  mkWorld None (fun _ _ => None) (Some (External "pool"))
          (fun _ => inr resp) (fun _ => inr tree) "feed-1" (fun _ _ _ => None).

Definition no_connection (resp : Response) (tree : JsVal) : World :=
  mkWorld (Some (External "pool")) (fun _ _ => None) None
          (fun _ => inr resp) (fun _ => inr tree) "feed-1" (fun _ _ _ => None).

(** An rss root that carries only its version attribute. *)
Definition channelless_tree : JsVal :=
  JObj [("rss", JObj [("@_version", JStr "2.0")])].

(** What the parser yields on an rss element with no content and no
    attribute, alone and before a feed element. *)
Definition empty_rss_roots : list (string * JsVal) := [("rss", JStr "")].

Definition empty_rss_and_feed_roots : list (string * JsVal) :=
  [("rss", JStr ""); ("feed", JObj [("title", JStr "Atom title")])].

(** An Atom document without a title element. *)
Definition titleless_atom_tree : JsVal :=
  JObj [("feed", JObj [("subtitle", JStr "Notes")])].

End Sample.

(** ** Basic facts about the JavaScript fragment *)

Section JsFacts.

Local Open Scope string_scope.

(** An array of row objects never compares greater than 1: the empty array
    converts to 0 and any other to NaN. *)
Lemma array_gt_one_false (rows : list Row) : array_gt rows 1 = false.
Proof.
  unfold array_gt, array_to_primitive, StringToNumber.
  destruct rows as [|r [|r' rest]]; reflexivity.
Qed.

Lemma array_gt_nonneg_false (rows : list Row) (n : Z) :
  (0 <= n)%Z -> array_gt rows n = false.
Proof.
  intros Hn. unfold array_gt, array_to_primitive, StringToNumber.
  destruct rows as [|r [|r' rest]]; simpl; try reflexivity.
  destruct (Z.gtb_spec 0 n); [lia | reflexivity].
Qed.

Lemma truthy_not_nullish (v : JsVal) : truthy v = true -> nullish v = false.
Proof. destruct v; simpl; congruence. Qed.

Lemma prefix_app (a b : string) : prefix a (a ++ b) = true.
Proof.
  induction a as [|c a IH]; simpl.
  - destruct b; reflexivity.
  - destruct (ascii_dec c c) as [_|n]; [exact IH | now elim n].
Qed.

Lemma prefix_split (a s : string) :
  prefix a s = true -> exists b, s = a ++ b.
Proof.
  revert s. induction a as [|c a IH]; intros s H.
  - exists s. reflexivity.
  - destruct s as [|d s]; simpl in H; [discriminate|].
    destruct (ascii_dec c d) as [Hcd|_]; [subst d|discriminate].
    destruct (IH _ H) as [b Hb]. subst s. exists b. reflexivity.
Qed.

Lemma includes_split (n s : string) :
  includes n s = true <-> exists p q, s = p ++ n ++ q.
Proof.
  split.
  - induction s as [|c s IH]; cbn [includes]; intros H.
    + destruct (prefix n "") eqn:E; [|discriminate].
      destruct (prefix_split _ _ E) as [q Hq]. exists "", q. exact Hq.
    + destruct (prefix n (String c s)) eqn:E.
      * destruct (prefix_split _ _ E) as [q Hq]. exists "", q. exact Hq.
      * destruct (IH H) as (p & q & ->). exists (String c p), q. reflexivity.
  - intros (p & q & ->). induction p as [|c p IH].
    + change ("" ++ n ++ q) with (n ++ q).
      destruct (n ++ q) eqn:E; cbn [includes]; rewrite <- E, prefix_app;
        reflexivity.
    + change (String c p ++ n ++ q) with (String c (p ++ n ++ q)).
      cbn [includes]. rewrite IH.
      destruct (prefix n (String c (p ++ n ++ q))); reflexivity.
Qed.

Lemma string_app_assoc (a b c : string) : (a ++ b) ++ c = a ++ b ++ c.
Proof. induction a as [|x a IH]; simpl; [reflexivity | now rewrite IH]. Qed.

(** A text that includes [a ++ b] includes [b]. *)
Lemma includes_suffix (a b s : string) :
  includes (a ++ b) s = true -> includes b s = true.
Proof.
  intros H. apply includes_split in H. destruct H as (p & q & ->).
  apply includes_split. exists (p ++ a), q.
  now rewrite !string_app_assoc.
Qed.

End JsFacts.

(** ** The extractors *)

Section ExtractFacts.

Lemma extractAtomData_ok (url : string) (feed : JsVal) :
  nullish feed = false ->
  extractAtomData url feed =
    inr (metadata (coalesce (field feed "subtitle") (JStr ""))
                  (coalesce (field feed "title") (JStr url))
                  (field feed "icon") url "atom").
Proof. destruct feed; simpl; intros H; try discriminate; reflexivity. Qed.

Lemma extractRssData_ok (url : string) (parsedXml : JsVal) :
  nullish parsedXml = false ->
  nullish (field parsedXml "channel") = false ->
  extractRssData url parsedXml =
    inr (metadata
           (coalesce (field (field parsedXml "channel") "description") (JStr ""))
           (coalesce (field (field parsedXml "channel") "title") (JStr url))
           (field (field parsedXml "image") "url") url "rss").
Proof.
  destruct parsedXml; simpl; intros H; try discriminate;
    intros Hc; try discriminate.
  unfold extractRssData, field, opt_get, get in *.
  rewrite Hc. simpl.
  destruct (lookup "channel" props); simpl in *; try discriminate;
    destruct (lookup "image" props); reflexivity.
Qed.

(** Without a channel the title read throws. *)
Lemma extractRssData_no_channel (url : string) (parsedXml : JsVal) :
  nullish (field parsedXml "channel") = true ->
  extractRssData url parsedXml = inl TypeError.
Proof.
  destruct parsedXml; simpl; intros H; try reflexivity.
  unfold extractRssData. simpl.
  unfold field in H. simpl in H.
  destruct (lookup "channel" props); simpl in *; try discriminate; reflexivity.
Qed.

Lemma extractAtomData_shape (url : string) (v feed : JsVal) :
  extractAtomData url v = inr feed ->
  exists d t i, feed = metadata d t i url "atom".
Proof.
  destruct v; simpl; intros H; try discriminate;
    inversion H; subst; unfold metadata; eauto.
Qed.

Lemma extractRssData_shape (url : string) (v feed : JsVal) :
  extractRssData url v = inr feed ->
  exists d t i, feed = metadata d t i url "rss".
Proof.
  unfold extractRssData, ebind.
  destruct (get v "channel") as [|ch]; [discriminate|].
  destruct (opt_get ch "description") as [|d]; [discriminate|].
  destruct (get ch "title") as [|t]; [discriminate|].
  destruct (get v "image") as [|im]; [discriminate|].
  destruct (opt_get im "url") as [|u]; [discriminate|].
  intros H; inversion H; subst; unfold metadata; eauto.
Qed.

(** Whatever the document, an extracted record has the five fields, the
    requested URL as link and one of the two type tags. *)
Lemma extractFeed_shape (url : string) (parsedFeed feed : JsVal) :
  extractFeed url parsedFeed = inr feed ->
  exists d t i ty, feed = metadata d t i url ty /\ (ty = "rss" \/ ty = "atom").
Proof.
  unfold extractFeed, ebind, js_or.
  destruct (opt_get parsedFeed "rss") as [|rss]; [discriminate|].
  destruct (truthy rss) eqn:Hrss.
  - rewrite Hrss.
    destruct (get parsedFeed "rss") as [|rss']; [discriminate|].
    destruct (truthy rss').
    + intros H. apply extractRssData_shape in H. destruct H as (d & t & i & ->).
      exists d, t, i, "rss". auto.
    + destruct (get parsedFeed "rdf:RDF") as [|rdf]; [discriminate|].
      intros H. apply extractRssData_shape in H. destruct H as (d & t & i & ->).
      exists d, t, i, "rss". auto.
  - destruct (get parsedFeed "rdf:RDF") as [|rdf]; [discriminate|].
    destruct (truthy rdf) eqn:Hrdf.
    + destruct (get parsedFeed "rss") as [|rss']; [discriminate|].
      destruct (truthy rss').
      * intros H. apply extractRssData_shape in H. destruct H as (d & t & i & ->).
        exists d, t, i, "rss". auto.
      * intros H. apply extractRssData_shape in H. destruct H as (d & t & i & ->).
        exists d, t, i, "rss". auto.
    + destruct (get parsedFeed "feed") as [|fd]; [discriminate|].
      intros H. apply extractAtomData_shape in H. destruct H as (d & t & i & ->).
      exists d, t, i, "atom". auto.
Qed.

End ExtractFacts.

(** ** Running the resolver *)

(** Unfold one call down to the collaborators' answers. *)
Ltac unfold_run :=
  cbv [addDiscoverFeedResolver resolverBody handleExistingSubscription
       addNewSubscription try_catch bind ret liftE emit throw_if connect query
       release entityCreated log_error exec store trace].

(** Split on the innermost answer that the next step depends on. *)
Ltac case_step :=
  match goal with
  | |- context [match map id_row ?rows with _ => _ end] =>
      lazymatch rows with
      | context [match _ with _ => _ end] => fail
      | _ => destruct rows eqn:?; cbn [map]
      end
  | |- context [match ?x with _ => _ end] =>
      lazymatch x with
      | context [match _ with _ => _ end] => fail
      | _ => destruct x eqn:?
      end
  end.

Ltac no_conflict_branch :=
  match goal with
  | H : array_gt _ 1 = true |- _ =>
      rewrite array_gt_one_false in H; discriminate H
  end.

Ltac run_cases := unfold_run; repeat case_step; try no_conflict_branch.

(** Replace an extracted record by its five fields. *)
Ltac reveal_feed :=
  match goal with
  | H : extractFeed ?url _ = inr ?f |- _ =>
      let d := fresh "d" in
      let t := fresh "t" in
      let i := fresh "i" in
      let ty := fresh "ty" in
      let Hty := fresh "Hty" in
      let Hf := fresh "Hf" in
      destruct (extractFeed_shape _ _ _ H) as (d & t & i & ty & Hf & Hty);
      subst f; cbn in *
  end.

Section RunFacts.

Variable w : World.
Variables url uid : string.

(** The [try] block returns a success or one of the typed validation
    failures whenever it returns at all. *)
Lemma resolverBody_vocabulary (s s' : Sys) (r : Result) :
  resolverBody w url uid s = (inr r, s') -> in_vocabulary r.
Proof.
  destruct s as [st tr]. unfold in_vocabulary.
  run_cases; intros H; inversion H; subst; cbn; auto.
Qed.

(** The [catch] block turns every throw into the Unauthorized failure. *)
Lemma resolver_catches (s s1 : Sys) (e : Exn) :
  resolverBody w url uid s = (inl e, s1) ->
  addDiscoverFeedResolver w url uid s =
    (inr (AddDiscoverFeedError [Unauthorized]),
     mkSys (store s1) (trace s1 ++ [EvLogError log_message e])).
Proof.
  intros H. unfold addDiscoverFeedResolver, try_catch. rewrite H.
  reflexivity.
Qed.

Lemma resolver_returns (s s1 : Sys) (r : Result) :
  resolverBody w url uid s = (inr r, s1) ->
  addDiscoverFeedResolver w url uid s = (inr r, s1).
Proof.
  intros H. unfold addDiscoverFeedResolver, try_catch. rewrite H.
  reflexivity.
Qed.

(** The conflict branch of line 72 is dead: no call returns Conflict. *)
Lemma resolver_never_conflict (s s' : Sys) (r : Result) :
  addDiscoverFeedResolver w url uid s = (inr r, s') ->
  r <> AddDiscoverFeedError [Conflict].
Proof.
  destruct s as [st tr].
  run_cases; intros H; inversion H; subst; discriminate.
Qed.

(** On the existing-feed path the connection is never released. *)
Lemma existing_path_never_releases (s s' : Sys) (out : Exn + Result)
    (r0 : FeedRow) (rest : list FeedRow) :
  feeds_with_link (JStr url) (store s) = r0 :: rest ->
  addDiscoverFeedResolver w url uid s = (out, s') ->
  ~ In EvRelease (trace s) ->
  ~ In EvRelease (trace s').
Proof.
  destruct s as [st tr]. cbn [store trace]. intros Hrows.
  run_cases; intros H Hfresh; inversion H; subst; cbn [trace];
    try congruence;
    rewrite ?in_app_iff; cbn [In]; intuition discriminate.
Qed.

(** A call that returns BadRequest has not released the connection. *)
Lemma bad_request_never_releases (s s' : Sys) :
  addDiscoverFeedResolver w url uid s =
    (inr (AddDiscoverFeedError [BadRequest]), s') ->
  ~ In EvRelease (trace s) ->
  ~ In EvRelease (trace s').
Proof.
  destruct s as [st tr]. cbn [store trace].
  run_cases; intros H Hfresh; inversion H; subst; cbn [trace];
    rewrite ?in_app_iff; cbn [In]; intuition discriminate.
Qed.

(** The connection is released only on the new-feed path, after both
    INSERTs went through. *)
Lemma release_only_after_inserts (s s' : Sys) (out : Exn + Result) :
  addDiscoverFeedResolver w url uid s = (out, s') ->
  ~ In EvRelease (trace s) ->
  In EvRelease (trace s') ->
  feeds_with_link (JStr url) (store s) = []
  /\ In (EvQuery (InsertSubscription (JStr (v4 w)) (JStr uid))) (trace s').
Proof.
  destruct s as [st tr]. cbn [store trace].
  run_cases; intros H Hfresh Hin; inversion H; subst; cbn [trace] in *;
    rewrite ?in_app_iff in *; cbn [In] in *;
    try solve [exfalso; intuition discriminate];
    (split; [reflexivity | tauto]).
Qed.

End RunFacts.

(** ** The outer boundary *)

(** C8: for every input and every behaviour of the network, parser, store
    and publisher, the resolver returns to its caller and never throws; the
    value returned is a success or a failure whose single code is
    BadRequest, Conflict or Unauthorized; and whenever the [try] block
    throws, the exception is logged and the value returned is the
    Unauthorized failure. *)
Theorem C8_never_throws (w : World) (url uid : string) (s : Sys) :
  exists (r : Result) (s' : Sys),
    addDiscoverFeedResolver w url uid s = (inr r, s')
    /\ in_vocabulary r
    /\ (forall e s1,
          resolverBody w url uid s = (inl e, s1) ->
          r = AddDiscoverFeedError [Unauthorized]
          /\ s' = mkSys (store s1) (trace s1 ++ [EvLogError log_message e])).
Proof.
  destruct (resolverBody w url uid s) as [[e | r] s1] eqn:Hbody.
  - exists (AddDiscoverFeedError [Unauthorized]),
           (mkSys (store s1) (trace s1 ++ [EvLogError log_message e])).
    split; [now apply resolver_catches|].
    split; [unfold in_vocabulary; auto|].
    intros e' s1' H. inversion H; subst. auto.
  - exists r, s1.
    split; [now apply resolver_returns|].
    split; [now apply (resolverBody_vocabulary w url uid s s1)|].
    intros e s1' H. discriminate H.
Qed.

(** ** Joining a known feed *)

(** C1, at the failing input: the feed is known and two subscription rows
    already exist for the caller; the call does not return Conflict but
    succeeds and inserts a third row. *)
Theorem C1_two_rows_no_conflict :
  length (subscriptions_of (JStr Sample.uid) (JStr "feed-1")
            (store Sample.twice_subscribed)) = 2
  /\ addDiscoverFeedResolver
       (Sample.calm (Sample.xml_response Sample.daily_xml) Sample.daily_tree)
       Sample.url Sample.uid Sample.twice_subscribed
     = (inr (AddDiscoverFeedSuccess (JObj [("id", JStr "feed-1")])),
        mkSys (mkStore [Sample.daily_row]
                 [Sample.subscription; Sample.subscription; Sample.subscription])
              [EvConnect;
               EvQuery (SelectFeedIdByLink (JStr Sample.url));
               EvQuery (SelectSubscription (JStr Sample.uid) (JStr "feed-1"));
               EvQuery (InsertSubscription (JStr "feed-1") (JStr Sample.uid))]).
Proof. split; reflexivity. Qed.

(** The scenario of the same user joining a known feed again and again:
    every call succeeds, the third one included, made when two rows exist. *)
Lemma repeated_join_always_succeeds :
  let w := Sample.calm (Sample.xml_response Sample.daily_xml) Sample.daily_tree in
  let c := mkCall w Sample.url Sample.uid in
  fst (run_call c Sample.known)
    = inr (AddDiscoverFeedSuccess (JObj [("id", JStr "feed-1")]))
  /\ fst (run_call c (run_calls [c] Sample.known))
    = inr (AddDiscoverFeedSuccess (JObj [("id", JStr "feed-1")]))
  /\ fst (run_call c (run_calls [c; c] Sample.known))
    = inr (AddDiscoverFeedSuccess (JObj [("id", JStr "feed-1")]))
  /\ store (run_calls [c; c] Sample.known) = store Sample.twice_subscribed.
Proof. repeat split; reflexivity. Qed.

(** ** Releasing the connection *)

(** C7, at the failing input: the link is unknown and the response is
    declared text/html; the call returns BadRequest having acquired the
    connection and never released it. *)
Theorem C7_bad_request_leaks_connection :
  let out :=
    addDiscoverFeedResolver
      (Sample.calm (Sample.html_response Sample.daily_xml) Sample.daily_tree)
      Sample.url Sample.uid Sample.empty in
  fst out = inr (AddDiscoverFeedError [BadRequest])
  /\ trace (snd out)
     = [EvConnect; EvQuery (SelectFeedIdByLink (JStr Sample.url));
        EvGet Sample.url]
  /\ In EvConnect (trace (snd out))
  /\ ~ In EvRelease (trace (snd out)).
Proof.
  cbv zeta. repeat split; try reflexivity.
  - cbn. auto.
  - cbn. intuition discriminate.
Qed.

(** A successful join of a known feed leaks the connection as well. *)
Lemma join_leaks_connection :
  let out :=
    addDiscoverFeedResolver
      (Sample.calm (Sample.xml_response Sample.daily_xml) Sample.daily_tree)
      Sample.url Sample.uid Sample.known in
  fst out = inr (AddDiscoverFeedSuccess (JObj [("id", JStr "feed-1")]))
  /\ ~ In EvRelease (trace (snd out)).
Proof.
  cbv zeta. split; [reflexivity|]. cbn. intuition discriminate.
Qed.

(** ** Validation on the new-feed path *)

Lemma indicates_xml_isXML (contentType : option string) :
  indicates_xml contentType = false -> isXML contentType = false.
Proof.
  destruct contentType as [ct|]; [|reflexivity].
  unfold indicates_xml, isXML. intros H.
  apply orb_false_iff in H. destruct H as [_ Hxml].
  assert (Hno : forall a, includes (a ++ "xml")%string ct = false).
  { intros a. destruct (includes (a ++ "xml")%string ct) eqn:E; [|reflexivity].
    apply includes_suffix in E. congruence. }
  pose proof (Hno "text/rss+") as Hrss.
  pose proof (Hno "text/atom+") as Hatom.
  pose proof (Hno "application/") as Happ.
  cbn [append] in Hrss, Hatom, Happ.
  rewrite Hrss, Hatom, Happ. reflexivity.
Qed.

Ltac flatten_trace := rewrite <- ?app_assoc; cbn [app].

Section NewFeedPath.

Variable w : World.
Variables url uid : string.
Variable s : Sys.
Variable response : Response.

Hypothesis Hnew : new_feed_path w url s.
Hypothesis Hget : axios_get w url = inr response.

(** C4: on the new-feed path, a response whose declared content type does
    not indicate rss+xml, atom+xml or xml (or that declares none) yields
    BadRequest; the body is not parsed and no statement is sent to the store
    after the lookup, so nothing is inserted. *)
Theorem C4_content_type_gate :
  indicates_xml (content_type response) = false ->
  addDiscoverFeedResolver w url uid s
  = (inr (AddDiscoverFeedError [BadRequest]), mkSys (store s) (fetched s url)).
Proof.
  intros Hct. apply indicates_xml_isXML in Hct.
  destruct Hnew as (Hconnect & Hselect & Hrows).
  unfold fetched. destruct s as [st tr]. cbn [store trace] in *.
  unfold_run. rewrite Hconnect, Hselect, Hrows, Hget, Hct. cbn [map negb].
  flatten_trace. reflexivity.
Qed.

Variable parsedFeed : JsVal.

Hypothesis Hxml : isXML (content_type response) = true.
Hypothesis Hparse : parse w (data response) = inr parsedFeed.

(** A document without a truthy rss, rdf:RDF or feed root is refused. *)
Lemma no_root_bad_request :
  noFeedRoot parsedFeed = inr true ->
  addDiscoverFeedResolver w url uid s
  = (inr (AddDiscoverFeedError [BadRequest]), mkSys (store s) (parsed s url response)).
Proof.
  intros Hroot.
  destruct Hnew as (Hconnect & Hselect & Hrows).
  unfold parsed, fetched. destruct s as [st tr]. cbn [store trace] in *.
  unfold_run.
  rewrite Hconnect, Hselect, Hrows, Hget, Hxml, Hparse, Hroot. cbn [map negb].
  flatten_trace. reflexivity.
Qed.

(** C3: on the new-feed path, for a document of a recognised format (RSS,
    RDF or Atom) whose extracted title, URL fallback included, is empty
    (or any other falsy value), the call returns BadRequest; the store is
    left as it was and no INSERT is sent. *)
Theorem C3_title_required (feed : JsVal) :
  noFeedRoot parsedFeed = inr false ->
  extractFeed url parsedFeed = inr feed ->
  truthy (field feed "title") = false ->
  addDiscoverFeedResolver w url uid s
  = (inr (AddDiscoverFeedError [BadRequest]), mkSys (store s) (parsed s url response)).
Proof.
  intros Hroot Hfeed Htitle.
  destruct (extractFeed_shape _ _ _ Hfeed) as (d & t & i & ty & -> & _).
  cbn in Htitle.
  destruct Hnew as (Hconnect & Hselect & Hrows).
  unfold parsed, fetched. destruct s as [st tr]. cbn [store trace] in *.
  unfold_run.
  rewrite Hconnect, Hselect, Hrows, Hget, Hxml, Hparse, Hroot, Hfeed.
  cbn [map negb]. cbn. rewrite Htitle. cbn.
  flatten_trace. reflexivity.
Qed.

End NewFeedPath.

(** The content-type check at work: a text/html response whose body is the sample RSS
    document. *)
Lemma C4_content_type_gate_witness :
  let w := Sample.calm (Sample.html_response Sample.daily_xml) Sample.daily_tree in
  new_feed_path w Sample.url Sample.empty
  /\ indicates_xml (content_type (Sample.html_response Sample.daily_xml)) = false
  /\ addDiscoverFeedResolver w Sample.url Sample.uid Sample.empty
     = (inr (AddDiscoverFeedError [BadRequest]),
        mkSys (mkStore [] [])
              [EvConnect; EvQuery (SelectFeedIdByLink (JStr Sample.url));
               EvGet Sample.url]).
Proof.
  cbv zeta.
  assert (Hnew : new_feed_path
                   (Sample.calm (Sample.html_response Sample.daily_xml)
                                Sample.daily_tree)
                   Sample.url Sample.empty)
    by (repeat split; reflexivity).
  split; [exact Hnew|]. split; [reflexivity|].
  exact (C4_content_type_gate _ Sample.url Sample.uid Sample.empty
           (Sample.html_response Sample.daily_xml) Hnew eq_refl eq_refl).
Defined.

(** The Atom document with an empty title element. *)
Lemma C3_title_required_witness :
  let resp := Sample.xml_response Sample.untitled_atom_xml in
  let w := Sample.calm resp Sample.untitled_atom_tree in
  new_feed_path w Sample.url Sample.empty
  /\ extractFeed Sample.url Sample.untitled_atom_tree
     = inr (metadata (JStr "") (JStr "") JUndefined Sample.url "atom")
  /\ addDiscoverFeedResolver w Sample.url Sample.uid Sample.empty
     = (inr (AddDiscoverFeedError [BadRequest]),
        mkSys (mkStore [] [])
              [EvConnect; EvQuery (SelectFeedIdByLink (JStr Sample.url));
               EvGet Sample.url; EvParse Sample.untitled_atom_xml]).
Proof.
  cbv zeta.
  assert (Hnew : new_feed_path
                   (Sample.calm (Sample.xml_response Sample.untitled_atom_xml)
                                Sample.untitled_atom_tree)
                   Sample.url Sample.empty)
    by (repeat split; reflexivity).
  split; [exact Hnew|]. split; [reflexivity|].
  exact (C3_title_required _ Sample.url Sample.uid Sample.empty
           (Sample.xml_response Sample.untitled_atom_xml) Hnew eq_refl
           Sample.untitled_atom_tree eq_refl eq_refl
           (metadata (JStr "") (JStr "") JUndefined Sample.url "atom")
           eq_refl eq_refl eq_refl).
Defined.

(** ** Format dispatch and extraction *)

(** C5 as stated fails: an rss root that is present but empty is not
    extracted as RSS.  Alone, it makes the call return BadRequest; before a
    feed root, the document is extracted as Atom and the call succeeds with
    a feed of type atom. *)
Lemma C5_empty_rss_root_not_rss :
  let url := Sample.url in
  let alone := Sample.calm (Sample.xml_response "<rss></rss>")
                           (JObj Sample.empty_rss_roots) in
  let beside :=
    Sample.calm
      (Sample.xml_response "<rss></rss><feed><title>Atom title</title></feed>")
      (JObj Sample.empty_rss_and_feed_roots) in
  root_present Sample.empty_rss_roots "rss" = true
  /\ fst (addDiscoverFeedResolver alone url Sample.uid Sample.empty)
     = inr (AddDiscoverFeedError [BadRequest])
  /\ root_present Sample.empty_rss_and_feed_roots "rss" = true
  /\ extractFeed url (JObj Sample.empty_rss_and_feed_roots)
     = inr (metadata (JStr "") (JStr "Atom title") JUndefined url "atom")
  /\ fst (addDiscoverFeedResolver beside url Sample.uid Sample.empty)
     = inr (AddDiscoverFeedSuccess
              (JObj [("description", JStr ""); ("title", JStr "Atom title");
                     ("image", JUndefined); ("link", JStr url);
                     ("type", JStr "atom"); ("id", JStr "feed-1")])).
Proof.
  cbv zeta. repeat split; reflexivity.
Qed.

(** C5, amended: for every parsed document, read through its root keys:
    when the rss or the rdf:RDF root holds a truthy value (an element that
    is not empty), the document is handed to the RSS extractor (the rss
    root first, and whatever the feed root holds), any record extracted is
    tagged rss, and a record is extracted whenever that root has a channel;
    otherwise, when the feed root holds a truthy value, the Atom record is
    extracted, tagged atom, with the subtitle (or the empty text) as
    description and the icon as image; otherwise the call returns
    BadRequest. *)
Theorem C5_format_dispatch (url : string) (roots : list (string * JsVal)) :
  let doc := JObj roots in
  let feed := lookup "feed" roots in
  (root_truthy roots "rss" || root_truthy roots "rdf:RDF" = true ->
     noFeedRoot doc = inr false
     /\ extractFeed url doc
        = extractRssData url (if root_truthy roots "rss"
                              then lookup "rss" roots
                              else lookup "rdf:RDF" roots)
     /\ (forall record, extractFeed url doc = inr record ->
                        get record "type" = inr (JStr "rss"))
     /\ (nullish (field (if root_truthy roots "rss"
                         then lookup "rss" roots
                         else lookup "rdf:RDF" roots) "channel") = false ->
         exists record,
           extractFeed url doc = inr record
           /\ get record "type" = inr (JStr "rss")))
  /\ (root_truthy roots "rss" || root_truthy roots "rdf:RDF" = false ->
      root_truthy roots "feed" = true ->
      noFeedRoot doc = inr false
      /\ extractFeed url doc
         = inr (metadata (coalesce (field feed "subtitle") (JStr ""))
                         (coalesce (field feed "title") (JStr url))
                         (field feed "icon") url "atom"))
  /\ (root_truthy roots "rss" || root_truthy roots "rdf:RDF" = false ->
      root_truthy roots "feed" = false ->
      noFeedRoot doc = inr true
      /\ forall w uid s response,
           new_feed_path w url s ->
           axios_get w url = inr response ->
           isXML (content_type response) = true ->
           parse w (data response) = inr doc ->
           addDiscoverFeedResolver w url uid s
           = (inr (AddDiscoverFeedError [BadRequest]),
              mkSys (store s) (parsed s url response))).
Proof.
  cbv zeta. unfold root_truthy.
  assert (Hdispatch :
            truthy (lookup "rss" roots) || truthy (lookup "rdf:RDF" roots) = true ->
            extractFeed url (JObj roots)
            = extractRssData url (if truthy (lookup "rss" roots)
                                  then lookup "rss" roots
                                  else lookup "rdf:RDF" roots)).
  { cbv [extractFeed opt_get get nullish ebind js_or].
    destruct (truthy (lookup "rss" roots)) eqn:Hrss; cbn [orb]; intros Hrdf.
    - repeat (rewrite Hrss; cbv beta iota). reflexivity.
    - repeat (first [rewrite Hrss | rewrite Hrdf]; cbv beta iota).
      reflexivity. }
  split; [|split].
  - intros Hroot. split; [|split; [|split]].
    + cbv [noFeedRoot opt_get get nullish ebind].
      destruct (truthy (lookup "rss" roots)); cbn [orb] in Hroot;
        [reflexivity | rewrite Hroot; reflexivity].
    + exact (Hdispatch Hroot).
    + intros record Hrecord. rewrite (Hdispatch Hroot) in Hrecord.
      destruct (extractRssData_shape _ _ _ Hrecord) as (d & t & i & ->).
      reflexivity.
    + intros Hchannel. rewrite (Hdispatch Hroot).
      rewrite extractRssData_ok; [eexists; split; reflexivity | | exact Hchannel].
      apply truthy_not_nullish.
      destruct (truthy (lookup "rss" roots)) eqn:Hrss; [exact Hrss | exact Hroot].
  - intros Hroot Hfeed. apply orb_false_iff in Hroot. destruct Hroot as [Hrss Hrdf].
    split.
    + cbv [noFeedRoot opt_get get nullish ebind]. rewrite Hrss, Hrdf, Hfeed.
      reflexivity.
    + cbv [extractFeed opt_get get nullish ebind js_or].
      rewrite Hrss, Hrdf. fold (get (lookup "feed" roots) "subtitle").
      apply extractAtomData_ok. now apply truthy_not_nullish.
  - intros Hroot Hfeed. apply orb_false_iff in Hroot. destruct Hroot as [Hrss Hrdf].
    assert (Hno : noFeedRoot (JObj roots) = inr true).
    { cbv [noFeedRoot opt_get get nullish ebind]. rewrite Hrss, Hrdf, Hfeed.
      reflexivity. }
    split; [exact Hno|].
    intros w uid s response Hnew Hget Hxml Hparse.
    now apply (no_root_bad_request w url uid s response Hnew Hget (JObj roots)).
Qed.

(** The three branches of the dispatch on small documents. *)
Lemma C5_format_dispatch_witness :
  (* an rss root beside a feed root: RSS wins *)
  extractFeed Sample.url
    (JObj [("feed", JObj [("title", JStr "Atom title")]);
           ("rss", JObj [("channel", JObj [("title", JStr "Daily")])])])
  = inr (metadata (JStr "") (JStr "Daily") JUndefined Sample.url "rss")
  (* a feed root alone: Atom *)
  /\ extractFeed Sample.url
       (JObj [("feed", JObj [("title", JStr "Atom title");
                             ("icon", JStr "https://example.org/i.png")])])
     = inr (metadata (JStr "") (JStr "Atom title")
                     (JStr "https://example.org/i.png") Sample.url "atom")
  (* no feed root at all *)
  /\ noFeedRoot (JObj [("html", JObj [])]) = inr true.
Proof.
  split; [|split].
  - destruct (C5_format_dispatch Sample.url
                [("feed", JObj [("title", JStr "Atom title")]);
                 ("rss", JObj [("channel", JObj [("title", JStr "Daily")])])])
      as [Hrss _].
    destruct (Hrss eq_refl) as (_ & Hextract & _ & _).
    rewrite Hextract. reflexivity.
  - destruct (C5_format_dispatch Sample.url
                [("feed", JObj [("title", JStr "Atom title");
                                ("icon", JStr "https://example.org/i.png")])])
      as (_ & Hatom & _).
    destruct (Hatom eq_refl eq_refl) as [_ Hextract].
    rewrite Hextract. reflexivity.
  - destruct (C5_format_dispatch Sample.url [("html", JObj [])])
      as (_ & _ & Hnone).
    exact (proj1 (Hnone eq_refl eq_refl)).
Defined.

(** C6 as stated fails: with the image inside the channel, where RSS 2.0
    puts it, the extracted record has no image, whereas the specification's
    record carries channel.image.url. *)
Lemma C6_channel_image_not_read :
  extractRssData Sample.url Sample.logo_root
  = inr (metadata (JStr "") (JStr "Daily") JUndefined Sample.url "rss")
  /\ spec_rss_metadata Sample.url Sample.logo_root
     = metadata (JStr "") (JStr "Daily") (JStr "https://example.org/logo.png")
                Sample.url "rss"
  /\ extractRssData Sample.url Sample.logo_root
     <> inr (spec_rss_metadata Sample.url Sample.logo_root).
Proof.
  split; [reflexivity|]. split; [reflexivity|]. discriminate.
Qed.

(** C6, amended: for every root element handed to the RSS extractor that
    has a channel, the record is {title = channel.title, or the requested
    URL when the channel has none; description = channel.description, or the
    empty text; image = the url of the image child of the root element
    itself (a sibling of channel), when there is one; link = the requested
    URL; type = rss}.  And the sample document, served as application/xml
    from an unknown link while store and pubsub answer, succeeds with
    Feed{title Daily, description News, type rss, link URL} under the
    generated id, which is the row inserted. *)
Theorem C6_rss_metadata (url : string) :
  (forall parsedXml,
      nullish (field parsedXml "channel") = false ->
      extractRssData url parsedXml
      = inr (metadata
               (coalesce (field (field parsedXml "channel") "description") (JStr ""))
               (coalesce (field (field parsedXml "channel") "title") (JStr url))
               (field (field parsedXml "image") "url") url "rss"))
  /\ (forall w uid s,
         new_feed_path w url s ->
         calm_store w ->
         calm_pubsub w ->
         axios_get w url = inr (Sample.xml_response Sample.daily_xml) ->
         parse w Sample.daily_xml = inr Sample.daily_tree ->
         let id := JStr (v4 w) in
         let feed :=
           JObj [("description", JStr "News"); ("title", JStr "Daily");
                 ("image", JUndefined); ("link", JStr url);
                 ("type", JStr "rss"); ("id", id)] in
         let row :=
           mkFeedRow id (JStr "Daily") (JStr url) JUndefined (JStr "rss")
                     (JStr "News") in
         addDiscoverFeedResolver w url uid s
         = (inr (AddDiscoverFeedSuccess feed),
            mkSys (mkStore (discover_feed (store s) ++ [row])
                           (discover_feed_subscription (store s)
                              ++ [mkSubscriptionRow id (JStr uid)]))
                  (parsed s url (Sample.xml_response Sample.daily_xml)
                     ++ [EvQuery (InsertFeed id (JStr "Daily") (JStr url)
                                             JUndefined (JStr "rss") (JStr "News"));
                         EvQuery (InsertSubscription id (JStr uid));
                         EvRelease;
                         discovery_event feed uid]))).
Proof.
  split.
  - intros parsedXml Hchannel. apply extractRssData_ok; [|exact Hchannel].
    destruct parsedXml; try reflexivity; cbn in Hchannel; discriminate.
  - intros w uid s (Hconnect & Hselect & Hrows) (_ & Hquery & Hrelease) Hpub
           Hget Hparse.
    cbv zeta. unfold parsed, fetched, discovery_event, discovery_payload.
    destruct s as [st tr]. cbn [store trace] in *.
    unfold_run. rewrite Hconnect, Hselect, Hrows, Hget.
    cbn. rewrite Hparse. cbn. rewrite !Hquery, Hrelease, Hpub.
    flatten_trace. reflexivity.
Qed.

(** A root with channel and image side by side, and the sample document. *)
Lemma C6_rss_metadata_witness :
  extractRssData Sample.url
    (JObj [("channel", JObj [("title", JStr "Daily")]);
           ("image", JObj [("url", JStr "https://example.org/logo.png")])])
  = inr (metadata (JStr "") (JStr "Daily")
                  (JStr "https://example.org/logo.png") Sample.url "rss")
  /\ addDiscoverFeedResolver
       (Sample.calm (Sample.xml_response Sample.daily_xml) Sample.daily_tree)
       Sample.url Sample.uid Sample.empty
     = (inr (AddDiscoverFeedSuccess Sample.daily_feed),
        mkSys (mkStore [Sample.daily_row] [Sample.subscription])
              [EvConnect; EvQuery (SelectFeedIdByLink (JStr Sample.url));
               EvGet Sample.url; EvParse Sample.daily_xml;
               EvQuery (InsertFeed (JStr "feed-1") (JStr "Daily")
                                   (JStr Sample.url) JUndefined (JStr "rss")
                                   (JStr "News"));
               EvQuery (InsertSubscription (JStr "feed-1") (JStr Sample.uid));
               EvRelease;
               discovery_event Sample.daily_feed Sample.uid]).
Proof.
  destruct (C6_rss_metadata Sample.url) as [Hextract Hscenario].
  split.
  - exact (Hextract
             (JObj [("channel", JObj [("title", JStr "Daily")]);
                    ("image", JObj [("url", JStr "https://example.org/logo.png")])])
             eq_refl).
  - rewrite (Hscenario
               (Sample.calm (Sample.xml_response Sample.daily_xml) Sample.daily_tree)
               Sample.uid Sample.empty).
    + reflexivity.
    + repeat split; reflexivity.
    + repeat split; reflexivity.
    + intros kind payload owner. reflexivity.
    + reflexivity.
    + reflexivity.
Defined.

(** ** The discovery event *)

Ltac published_eq :=
  unfold published, discovery_event, discovery_payload;
  rewrite ?filter_app; cbn [filter is_publish app]; rewrite ?app_nil_r;
  try reflexivity.

Ltac inject_reads :=
  repeat match goal with
         | H : inr _ = inr _ |- _ => inversion H; clear H; subst
         end.

(** C9 as stated fails: when entityCreated throws after both rows were
    inserted, the rows stay but the caller receives the Unauthorized
    failure instead of the success it receives when the publish goes
    through. *)
Lemma C9_publish_failure_changes_result :
  let resp := Sample.xml_response Sample.daily_xml in
  let ok :=
    addDiscoverFeedResolver (Sample.calm resp Sample.daily_tree)
      Sample.url Sample.uid Sample.empty in
  let down :=
    addDiscoverFeedResolver (Sample.pubsub_down resp Sample.daily_tree)
      Sample.url Sample.uid Sample.empty in
  fst ok = inr (AddDiscoverFeedSuccess Sample.daily_feed)
  /\ fst down = inr (AddDiscoverFeedError [Unauthorized])
  /\ fst down <> fst ok
  /\ store (snd down) = mkStore [Sample.daily_row] [Sample.subscription]
  /\ published (trace (snd down))
     = [discovery_event Sample.daily_feed Sample.uid].
Proof.
  cbv zeta. repeat split; try reflexivity. discriminate.
Qed.

(** C9, amended: for every call that returns [r]:
    - if [r] is a success on the new-feed path, exactly one entityCreated
      call was made, with kind RSS_FEED, payload {feed, libraryItemId 'NA'}
      for the returned feed, and the caller's id as owner;
    - on the existing-feed path no entityCreated call is made;
    - if [r] is a failure, no entityCreated call was made, except when the
      failure is that of the publish itself: then both rows are in the store
      (nothing is reverted), the event was sent, and [r] is the Unauthorized
      failure rather than the success. *)
Theorem C9_discovery_event (w : World) (url uid : string) (s s' : Sys)
    (r : Result) :
  addDiscoverFeedResolver w url uid s = (inr r, s') ->
  (forall feed,
      r = AddDiscoverFeedSuccess feed ->
      feeds_with_link (JStr url) (store s) = [] ->
      published (trace s') = published (trace s) ++ [discovery_event feed uid])
  /\ (feeds_with_link (JStr url) (store s) <> [] ->
      published (trace s') = published (trace s))
  /\ (forall codes,
         r = AddDiscoverFeedError codes ->
         published (trace s') = published (trace s)
         \/ exists feed e row,
             codes = [Unauthorized]
             /\ entityCreated_throws w RSS_FEED (discovery_payload feed) uid = Some e
             /\ published (trace s')
                = published (trace s) ++ [discovery_event feed uid]
             /\ fr_id row = JStr (v4 w)
             /\ fr_link row = JStr url
             /\ store s'
                = mkStore (discover_feed (store s) ++ [row])
                          (discover_feed_subscription (store s)
                             ++ [mkSubscriptionRow (JStr (v4 w)) (JStr uid)])).
Proof.
  destruct s as [st tr]. cbn [store trace].
  run_cases; intros H; inversion H; subst; clear H; cbn [trace store];
    (split;
     [ intros feed Hr Hrows; try discriminate Hr; try congruence;
       inversion Hr; subst; published_eq
     | split;
       [ intros Hne; try congruence; published_eq
       | intros codes Hr; try discriminate Hr; inversion Hr; subst;
         try (left; solve [published_eq]) ] ]).
  right. reveal_feed. inject_reads.
  do 3 eexists.
  split; [reflexivity|].
  split; [unfold discovery_payload; eassumption|].
  split; [published_eq|].
  refine (conj _ (conj _ eq_refl)); reflexivity.
Qed.

(** The sample document discovered from an empty store: one event. *)
Lemma C9_discovery_event_witness :
  let w := Sample.calm (Sample.xml_response Sample.daily_xml) Sample.daily_tree in
  let out := addDiscoverFeedResolver w Sample.url Sample.uid Sample.empty in
  out = (inr (AddDiscoverFeedSuccess Sample.daily_feed), snd out)
  /\ published (trace (snd out))
     = [discovery_event Sample.daily_feed Sample.uid].
Proof.
  cbv zeta. split; [reflexivity|].
  destruct (C9_discovery_event
              (Sample.calm (Sample.xml_response Sample.daily_xml) Sample.daily_tree)
              Sample.url Sample.uid Sample.empty
              (snd (addDiscoverFeedResolver
                      (Sample.calm (Sample.xml_response Sample.daily_xml)
                                   Sample.daily_tree)
                      Sample.url Sample.uid Sample.empty))
              (AddDiscoverFeedSuccess Sample.daily_feed) eq_refl)
    as [Hsuccess _].
  exact (Hsuccess Sample.daily_feed eq_refl eq_refl).
Defined.

(** ** What a success carries *)

(** C10: when the link is already known, a success carries the first row of
    the lookup, which holds the id alone: title, link, description, image and
    type are absent; and the call does succeed with that row when the store
    answers.  On the new-feed path a success carries the six fields of the
    extracted record and the generated id. *)
Theorem C10_existing_feed_bare_row (w : World) (url uid : string) (s : Sys)
    (r0 : FeedRow) (rest : list FeedRow) :
  feeds_with_link (JStr url) (store s) = r0 :: rest ->
  (forall feed s',
      addDiscoverFeedResolver w url uid s = (inr (AddDiscoverFeedSuccess feed), s') ->
      feed = JObj [("id", fr_id r0)]
      /\ get feed "title" = inr JUndefined
      /\ get feed "link" = inr JUndefined
      /\ get feed "description" = inr JUndefined
      /\ get feed "image" = inr JUndefined
      /\ get feed "type" = inr JUndefined)
  /\ (calm_store w ->
      addDiscoverFeedResolver w url uid s
      = (inr (AddDiscoverFeedSuccess (JObj [("id", fr_id r0)])),
         mkSys (mkStore (discover_feed (store s))
                        (discover_feed_subscription (store s)
                           ++ [mkSubscriptionRow (fr_id r0) (JStr uid)]))
               (trace s
                  ++ [EvConnect;
                      EvQuery (SelectFeedIdByLink (JStr url));
                      EvQuery (SelectSubscription (JStr uid) (fr_id r0));
                      EvQuery (InsertSubscription (fr_id r0) (JStr uid))])))
  /\ (forall s0 feed s',
         feeds_with_link (JStr url) (store s0) = [] ->
         addDiscoverFeedResolver w url uid s0
         = (inr (AddDiscoverFeedSuccess feed), s') ->
         exists description title image type,
           feed = JObj [("description", description); ("title", title);
                        ("image", image); ("link", JStr url);
                        ("type", JStr type); ("id", JStr (v4 w))]
           /\ truthy title = true
           /\ (type = "rss" \/ type = "atom")).
Proof.
  intros Hrows. split; [|split].
  - intros feed s'. destruct s as [st tr]. cbn [store trace] in Hrows.
    run_cases; intros H; inversion H; subst; try congruence.
    assert (f = r0) by congruence. subst f.
    repeat split; reflexivity.
  - intros (Hconnect & Hquery & _).
    destruct s as [st tr]. cbn [store trace] in *.
    unfold_run. rewrite Hconnect, Hquery, Hrows. cbn [map id_row].
    cbn. rewrite !Hquery, array_gt_one_false. cbn. rewrite Hquery.
    flatten_trace. reflexivity.
  - intros s0 feed s' Hnone. destruct s0 as [st tr]. cbn [store trace] in Hnone.
    run_cases; intros H; inversion H; subst; try congruence.
    reveal_feed. inject_reads.
    do 4 eexists. split; [reflexivity|]. split; [|exact Hty].
    now apply negb_false_iff.
Qed.

(** Joining the known sample feed. *)
Lemma C10_existing_feed_bare_row_witness :
  let w := Sample.calm (Sample.xml_response Sample.daily_xml) Sample.daily_tree in
  feeds_with_link (JStr Sample.url) (store Sample.known) = [Sample.daily_row]
  /\ fst (addDiscoverFeedResolver w Sample.url Sample.uid Sample.known)
     = inr (AddDiscoverFeedSuccess (JObj [("id", JStr "feed-1")])).
Proof.
  cbv zeta. split; [reflexivity|].
  destruct (C10_existing_feed_bare_row
              (Sample.calm (Sample.xml_response Sample.daily_xml) Sample.daily_tree)
              Sample.url Sample.uid Sample.known Sample.daily_row [] eq_refl)
    as (_ & Hcalm & _).
  rewrite Hcalm; [reflexivity|].
  repeat split; reflexivity.
Defined.

(** ** One Feed row per link *)

Section FeedTable.

Lemma feed_rows_same_table (L : string) (st st' : Store) :
  discover_feed st' = discover_feed st -> feed_rows L st' = feed_rows L st.
Proof.
  unfold feed_rows, feeds_with_link. intros ->. reflexivity.
Qed.

Lemma feed_rows_new_row (L url : string) (st st' : Store) (row : FeedRow) :
  fr_link row = JStr url ->
  discover_feed st' = discover_feed st ++ [row] ->
  feed_rows L st' = feed_rows L st + (if (url =? L)%string then 1 else 0).
Proof.
  unfold feed_rows, feeds_with_link. intros Hlink ->.
  rewrite filter_app, length_app. cbn [filter]. rewrite Hlink. cbn [text_eq].
  destruct (url =? L)%string; reflexivity.
Qed.

(** One call leaves the Feed table as it was, or appends a single row for
    the requested link, and the latter only if the link had no row. *)
Lemma call_feed_table (w : World) (url uid : string) (s s' : Sys)
    (out : Exn + Result) :
  addDiscoverFeedResolver w url uid s = (out, s') ->
  discover_feed (store s') = discover_feed (store s)
  \/ (feeds_with_link (JStr url) (store s) = []
      /\ exists row,
           fr_link row = JStr url
           /\ discover_feed (store s') = discover_feed (store s) ++ [row]).
Proof.
  destruct s as [st tr]. cbn [store trace].
  run_cases; intros H; inversion H; subst; cbn [store discover_feed];
    try (left; reflexivity);
    right; reveal_feed; inject_reads;
    (split; [reflexivity | eexists; refine (conj _ eq_refl); reflexivity]).
Qed.

(** A success on the new-feed path has inserted the row. *)
Lemma new_feed_success_inserts (w : World) (url uid : string) (s s' : Sys)
    (feed : JsVal) :
  feeds_with_link (JStr url) (store s) = [] ->
  addDiscoverFeedResolver w url uid s = (inr (AddDiscoverFeedSuccess feed), s') ->
  exists row,
    fr_link row = JStr url
    /\ discover_feed (store s') = discover_feed (store s) ++ [row].
Proof.
  destruct s as [st tr]. cbn [store trace]. intros Hnone.
  run_cases; intros H; inversion H; subst; cbn [store discover_feed];
    try congruence.
  reveal_feed. inject_reads. eexists. refine (conj _ eq_refl). reflexivity.
Qed.

Lemma call_feed_rows (c : Call) (s : Sys) (L : string) :
  feed_rows L (store (snd (run_call c s))) = feed_rows L (store s)
  \/ (feed_rows L (store s) = 0 /\ feed_rows L (store (snd (run_call c s))) = 1).
Proof.
  unfold run_call.
  destruct (addDiscoverFeedResolver (call_world c) (call_url c) (call_uid c) s)
    as [out s'] eqn:Hcall.
  cbn [snd].
  destruct (call_feed_table _ _ _ _ _ _ Hcall) as [Hsame | (Hnone & row & Hlink & Happ)].
  - left. now apply feed_rows_same_table.
  - rewrite (feed_rows_new_row L _ _ _ _ Hlink Happ).
    destruct (String.eqb_spec (call_url c) L) as [<- | _].
    + right. unfold feed_rows. rewrite Hnone. split; reflexivity.
    + left. lia.
Qed.

Lemma run_calls_invariant (cs : list Call) (s : Sys) :
  one_feed_per_link (store s) -> one_feed_per_link (store (run_calls cs s)).
Proof.
  revert s. induction cs as [|c cs IH]; intros s Hinv; [exact Hinv|].
  cbn [run_calls]. apply IH. intros L.
  destruct (call_feed_rows c s L) as [-> | [_ ->]]; [apply Hinv | lia].
Qed.

Lemma run_calls_keeps_row (cs : list Call) (s : Sys) (L : string) :
  feed_rows L (store s) = 1 -> feed_rows L (store (run_calls cs s)) = 1.
Proof.
  revert s. induction cs as [|c cs IH]; intros s Hone; [exact Hone|].
  cbn [run_calls]. apply IH.
  destruct (call_feed_rows c s L) as [-> | [Hzero _]]; [exact Hone | lia].
Qed.

End FeedTable.

(** C2: in the sequential model, from a store with at most one Feed row per
    link, after any sequence of calls (any URLs, users and collaborator
    behaviours): there is still at most one Feed row per link; a link that
    had its row keeps exactly one; a call whose URL already has a Feed row
    leaves the Feed table untouched; and once a discovery of a link has
    succeeded, exactly one Feed row with that link exists after any further
    calls. *)
Theorem C2_one_feed_row_per_link (cs : list Call) (s : Sys) :
  one_feed_per_link (store s) ->
  one_feed_per_link (store (run_calls cs s))
  /\ (forall L, feed_rows L (store s) = 1 ->
                feed_rows L (store (run_calls cs s)) = 1)
  /\ (forall c, 1 <= feed_rows (call_url c) (store s) ->
                discover_feed (store (snd (run_call c s)))
                = discover_feed (store s))
  /\ (forall c feed s',
         run_call c s = (inr (AddDiscoverFeedSuccess feed), s') ->
         feed_rows (call_url c) (store (run_calls cs s')) = 1).
Proof.
  intros Hinv. split; [|split; [|split]].
  - now apply run_calls_invariant.
  - intros L. apply run_calls_keeps_row.
  - intros c Hknown. unfold run_call.
    destruct (addDiscoverFeedResolver (call_world c) (call_url c) (call_uid c) s)
      as [out s'] eqn:Hcall.
    cbn [snd].
    destruct (call_feed_table _ _ _ _ _ _ Hcall) as [Hsame | (Hnone & _)];
      [exact Hsame|].
    unfold feed_rows in Hknown. rewrite Hnone in Hknown. cbn in Hknown. lia.
  - intros c feed s' Hcall. apply run_calls_keeps_row.
    unfold run_call in Hcall.
    destruct (feeds_with_link (JStr (call_url c)) (store s)) as [|r0 rest] eqn:Hrows.
    + destruct (new_feed_success_inserts _ _ _ _ _ _ Hrows Hcall)
        as (row & Hlink & Happ).
      rewrite (feed_rows_new_row _ _ _ _ _ Hlink Happ).
      unfold feed_rows. rewrite Hrows, String.eqb_refl. reflexivity.
    + destruct (call_feed_table _ _ _ _ _ _ Hcall) as [Hsame | (Hnone & _)];
        [|congruence].
      rewrite (feed_rows_same_table _ _ _ Hsame).
      specialize (Hinv (call_url c)). unfold feed_rows in *.
      rewrite Hrows in *. cbn [length] in *. lia.
Qed.

(** The sample link discovered, then requested again by the same and by
    another user: one Feed row. *)
Lemma C2_one_feed_row_per_link_witness :
  let w := Sample.calm (Sample.xml_response Sample.daily_xml) Sample.daily_tree in
  let first := mkCall w Sample.url Sample.uid in
  let again := mkCall w Sample.url Sample.uid in
  let other := mkCall w Sample.url "user-2" in
  one_feed_per_link (store Sample.empty)
  /\ feed_rows Sample.url
       (store (run_calls [again; other] (snd (run_call first Sample.empty)))) = 1.
Proof.
  cbv zeta.
  assert (Hinv : one_feed_per_link (store Sample.empty))
    by (intros L; cbn; lia).
  split; [exact Hinv|].
  destruct (C2_one_feed_row_per_link
              [mkCall (Sample.calm (Sample.xml_response Sample.daily_xml)
                                   Sample.daily_tree) Sample.url Sample.uid;
               mkCall (Sample.calm (Sample.xml_response Sample.daily_xml)
                                   Sample.daily_tree) Sample.url "user-2"]
              Sample.empty Hinv)
    as (_ & _ & _ & Hafter).
  exact (Hafter
           (mkCall (Sample.calm (Sample.xml_response Sample.daily_xml)
                                Sample.daily_tree) Sample.url Sample.uid)
           Sample.daily_feed _ eq_refl).
Defined.

(** * Further properties of the resolver *)

(** ** What the result tells about the effects *)

Ltac reduce_reads := cbn [get lookup id_row String.eqb Ascii.eqb Bool.eqb] in *.

(** X1: a failure carries a single code, and it is BadRequest or
    Unauthorized; the Conflict code of line 76 is never returned, whatever
    the store holds. *)
Theorem X1_failure_codes (w : World) (url uid : string) (s : Sys)
    (codes : list AddDiscoverFeedErrorCode) :
  fst (addDiscoverFeedResolver w url uid s) = inr (AddDiscoverFeedError codes) ->
  codes = [BadRequest] \/ codes = [Unauthorized].
Proof.
  destruct s as [st tr].
  run_cases; cbn [fst]; intros H; inversion H; subst; auto.
Qed.

(** A text/html response: the one code is BadRequest. *)
Lemma X1_failure_codes_witness :
  fst (addDiscoverFeedResolver
         (Sample.calm (Sample.html_response Sample.daily_xml) Sample.daily_tree)
         Sample.url Sample.uid Sample.empty)
  = inr (AddDiscoverFeedError [BadRequest])
  /\ ([BadRequest] = [BadRequest] \/ [BadRequest] = [Unauthorized]).
Proof.
  split; [reflexivity|].
  exact (X1_failure_codes
           (Sample.calm (Sample.html_response Sample.daily_xml) Sample.daily_tree)
           Sample.url Sample.uid Sample.empty [BadRequest] eq_refl).
Defined.

(** X2: a call that returns BadRequest found no Feed row for the URL and
    did fetch a response, and it wrote nothing: the store is the one it
    started from and no event was published. *)
Theorem X2_bad_request_writes_nothing (w : World) (url uid : string)
    (s s' : Sys) :
  addDiscoverFeedResolver w url uid s
  = (inr (AddDiscoverFeedError [BadRequest]), s') ->
  store s' = store s
  /\ published (trace s') = published (trace s)
  /\ feeds_with_link (JStr url) (store s) = []
  /\ exists response, axios_get w url = inr response.
Proof.
  destruct s as [st tr]. cbn [store trace].
  run_cases; intros H; inversion H; subst; cbn [store trace];
    (split; [reflexivity|]); (split; [published_eq|]);
    (split; [reflexivity | eexists; reflexivity]).
Qed.

(** The Atom document with an empty title. *)
Lemma X2_bad_request_writes_nothing_witness :
  let w := Sample.calm (Sample.xml_response Sample.untitled_atom_xml)
                       Sample.untitled_atom_tree in
  let out := addDiscoverFeedResolver w "https://example.org/atom" Sample.uid
               Sample.known in
  fst out = inr (AddDiscoverFeedError [BadRequest])
  /\ store (snd out) = store Sample.known.
Proof.
  cbv zeta. split; [reflexivity|].
  exact (proj1 (X2_bad_request_writes_nothing
                  (Sample.calm (Sample.xml_response Sample.untitled_atom_xml)
                               Sample.untitled_atom_tree)
                  "https://example.org/atom" Sample.uid Sample.known _ eq_refl)).
Defined.

(** X3: every success, on either path, has appended one subscription row to
    the store, for the caller and the id of the feed it returns; the rows
    that were there are kept. *)
Theorem X3_success_subscribes_caller (w : World) (url uid : string)
    (s s' : Sys) (feed : JsVal) :
  addDiscoverFeedResolver w url uid s = (inr (AddDiscoverFeedSuccess feed), s') ->
  exists feedId,
    get feed "id" = inr feedId
    /\ discover_feed_subscription (store s')
       = discover_feed_subscription (store s)
           ++ [mkSubscriptionRow feedId (JStr uid)].
Proof.
  destruct s as [st tr]. cbn [store trace].
  run_cases; intros H; inversion H; subst;
    cbn [store discover_feed_subscription].
  - reveal_feed. inject_reads. eexists. split; reflexivity.
  - reduce_reads. inject_reads. eexists. split; reflexivity.
Qed.

(** Joining the known sample feed. *)
Lemma X3_success_subscribes_caller_witness :
  let w := Sample.calm (Sample.xml_response Sample.daily_xml) Sample.daily_tree in
  exists feedId,
    get (JObj [("id", JStr "feed-1")]) "id" = inr feedId
    /\ discover_feed_subscription
         (store (snd (addDiscoverFeedResolver w Sample.url Sample.uid Sample.known)))
       = discover_feed_subscription (store Sample.known)
           ++ [mkSubscriptionRow feedId (JStr Sample.uid)].
Proof.
  cbv zeta.
  exact (X3_success_subscribes_caller
           (Sample.calm (Sample.xml_response Sample.daily_xml) Sample.daily_tree)
           Sample.url Sample.uid Sample.known _
           (JObj [("id", JStr "feed-1")]) eq_refl).
Defined.

(** ** The new-feed path once a record is extracted *)

Section ExtractedRecord.

Variable w : World.
Variables url uid : string.
Variable s : Sys.
Variable response : Response.
Variable parsedFeed : JsVal.
Variables description title image : JsVal.
Variable type : string.

Hypothesis Hnew : new_feed_path w url s.
Hypothesis Hget : axios_get w url = inr response.
Hypothesis Hxml : isXML (content_type response) = true.
Hypothesis Hparse : parse w (data response) = inr parsedFeed.
Hypothesis Hroot : noFeedRoot parsedFeed = inr false.
Hypothesis Hfeed :
  extractFeed url parsedFeed = inr (metadata description title image url type).
Hypothesis Htitle : truthy title = true.

Ltac enter_new_path :=
  destruct Hnew as (Hconnect & Hselect & Hrows);
  unfold parsed, fetched, with_subscription, with_feed_row, insert_of,
    feed_row_of, feed_with_id, discovery_event, discovery_payload in *;
  cbn [fr_id fr_title fr_link fr_image fr_type fr_description] in *;
  destruct s as [st tr]; cbn [store trace discover_feed
                              discover_feed_subscription] in *;
  unfold_run;
  rewrite Hconnect, Hselect, Hrows, Hget, Hxml, Hparse, Hroot, Hfeed;
  cbn; rewrite Htitle; cbn.

(** X4: while the store and pubsub answer, a document whose extracted title
    is truthy is accepted: the call returns the record with the generated
    id, has inserted the Feed row built from the record and the caller's
    subscription row, has released the connection and has published the
    event, in this order. *)
Theorem X4_new_feed_success :
  calm_store w ->
  calm_pubsub w ->
  addDiscoverFeedResolver w url uid s
  = (inr (AddDiscoverFeedSuccess
            (feed_with_id w description title image url type)),
     mkSys (with_subscription
              (with_feed_row (store s)
                 (feed_row_of w description title image url type))
              (JStr (v4 w)) (JStr uid))
           (parsed s url response
              ++ [EvQuery (insert_of
                             (feed_row_of w description title image url type));
                  EvQuery (InsertSubscription (JStr (v4 w)) (JStr uid));
                  EvRelease;
                  discovery_event
                    (feed_with_id w description title image url type) uid])).
Proof.
  intros (_ & Hquery & Hrelease) Hpub.
  enter_new_path. rewrite !Hquery, Hrelease, Hpub.
  flatten_trace. reflexivity.
Qed.

(** X5: when the subscription INSERT throws after the Feed INSERT went
    through, nothing is rolled back: the Feed row stays without any
    subscription, the caller receives Unauthorized, the connection is not
    released and no event is published. *)
Theorem X5_orphan_feed_row (e : Exn) :
  query_throws w (insert_of (feed_row_of w description title image url type))
    (store s) = None ->
  query_throws w (InsertSubscription (JStr (v4 w)) (JStr uid))
    (with_feed_row (store s)
       (feed_row_of w description title image url type)) = Some e ->
  addDiscoverFeedResolver w url uid s
  = (inr (AddDiscoverFeedError [Unauthorized]),
     mkSys (with_feed_row (store s)
              (feed_row_of w description title image url type))
           (parsed s url response
              ++ [EvQuery (insert_of
                             (feed_row_of w description title image url type));
                  EvQuery (InsertSubscription (JStr (v4 w)) (JStr uid));
                  EvLogError log_message e])).
Proof.
  intros Hinsert Hsub.
  enter_new_path. rewrite Hinsert. cbn. rewrite Hsub.
  flatten_trace. reflexivity.
Qed.

(** X6: when release throws after both INSERTs, both rows stay in the
    store, yet the caller receives Unauthorized and no event is published. *)
Theorem X6_release_failure_after_commit (e : Exn) :
  (forall q st, query_throws w q st = None) ->
  release_throws w = Some e ->
  addDiscoverFeedResolver w url uid s
  = (inr (AddDiscoverFeedError [Unauthorized]),
     mkSys (with_subscription
              (with_feed_row (store s)
                 (feed_row_of w description title image url type))
              (JStr (v4 w)) (JStr uid))
           (parsed s url response
              ++ [EvQuery (insert_of
                             (feed_row_of w description title image url type));
                  EvQuery (InsertSubscription (JStr (v4 w)) (JStr uid));
                  EvRelease;
                  EvLogError log_message e])).
Proof.
  intros Hquery Hrelease.
  enter_new_path. rewrite !Hquery, Hrelease.
  flatten_trace. reflexivity.
Qed.

End ExtractedRecord.

(** An Atom document without a title element is accepted under its URL. *)
Lemma X4_new_feed_success_witness :
  let resp := Sample.xml_response "<feed><subtitle>Notes</subtitle></feed>" in
  let w := Sample.calm resp Sample.titleless_atom_tree in
  extractFeed Sample.url Sample.titleless_atom_tree
  = inr (metadata (JStr "Notes") (JStr Sample.url) JUndefined Sample.url "atom")
  /\ fst (addDiscoverFeedResolver w Sample.url Sample.uid Sample.empty)
     = inr (AddDiscoverFeedSuccess
              (JObj [("description", JStr "Notes"); ("title", JStr Sample.url);
                     ("image", JUndefined); ("link", JStr Sample.url);
                     ("type", JStr "atom"); ("id", JStr "feed-1")])).
Proof.
  cbv zeta. split; [reflexivity|].
  rewrite (X4_new_feed_success
             (Sample.calm
                (Sample.xml_response "<feed><subtitle>Notes</subtitle></feed>")
                Sample.titleless_atom_tree)
             Sample.url Sample.uid Sample.empty
             (Sample.xml_response "<feed><subtitle>Notes</subtitle></feed>")
             Sample.titleless_atom_tree
             (JStr "Notes") (JStr Sample.url) JUndefined "atom").
  - reflexivity.
  - repeat split; reflexivity.
  - reflexivity.
  - reflexivity.
  - reflexivity.
  - reflexivity.
  - reflexivity.
  - reflexivity.
  - repeat split; reflexivity.
  - intros kind payload owner. reflexivity.
Defined.

(** The sample document on a store whose subscription INSERT throws. *)
Lemma X5_orphan_feed_row_witness :
  let w := Sample.subscription_insert_fails
             (Sample.xml_response Sample.daily_xml) Sample.daily_tree in
  let out := addDiscoverFeedResolver w Sample.url Sample.uid Sample.empty in
  fst out = inr (AddDiscoverFeedError [Unauthorized])
  /\ store (snd out) = mkStore [Sample.daily_row] [].
Proof.
  cbv zeta.
  rewrite (X5_orphan_feed_row
             (Sample.subscription_insert_fails
                (Sample.xml_response Sample.daily_xml) Sample.daily_tree)
             Sample.url Sample.uid Sample.empty
             (Sample.xml_response Sample.daily_xml) Sample.daily_tree
             (JStr "News") (JStr "Daily") JUndefined "rss")
    with (e := External "store").
  - split; reflexivity.
  - repeat split; reflexivity.
  - reflexivity.
  - reflexivity.
  - reflexivity.
  - reflexivity.
  - reflexivity.
  - reflexivity.
  - reflexivity.
  - reflexivity.
Defined.

(** The sample document on a pool whose release throws. *)
Lemma X6_release_failure_after_commit_witness :
  let w := Sample.release_fails
             (Sample.xml_response Sample.daily_xml) Sample.daily_tree in
  let out := addDiscoverFeedResolver w Sample.url Sample.uid Sample.empty in
  fst out = inr (AddDiscoverFeedError [Unauthorized])
  /\ store (snd out) = mkStore [Sample.daily_row] [Sample.subscription]
  /\ published (trace (snd out)) = [].
Proof.
  cbv zeta.
  rewrite (X6_release_failure_after_commit
             (Sample.release_fails
                (Sample.xml_response Sample.daily_xml) Sample.daily_tree)
             Sample.url Sample.uid Sample.empty
             (Sample.xml_response Sample.daily_xml) Sample.daily_tree
             (JStr "News") (JStr "Daily") JUndefined "rss")
    with (e := External "pool").
  - repeat split; reflexivity.
  - repeat split; reflexivity.
  - reflexivity.
  - reflexivity.
  - reflexivity.
  - reflexivity.
  - reflexivity.
  - reflexivity.
  - intros q st. reflexivity.
  - reflexivity.
Defined.

(** ** Documents that make the extractor throw *)

Lemma rss_root_dispatch (url : string) (roots : list (string * JsVal)) :
  root_truthy roots "rss" || root_truthy roots "rdf:RDF" = true ->
  noFeedRoot (JObj roots) = inr false
  /\ extractFeed url (JObj roots)
     = extractRssData url (if root_truthy roots "rss"
                           then lookup "rss" roots
                           else lookup "rdf:RDF" roots).
Proof.
  unfold root_truthy. intros Hroot.
  cbv [noFeedRoot extractFeed opt_get get nullish ebind js_or].
  destruct (truthy (lookup "rss" roots)) eqn:Hrss; cbn [orb] in Hroot.
  - repeat (rewrite Hrss; cbv beta iota). split; reflexivity.
  - repeat (first [rewrite Hrss | rewrite Hroot]; cbv beta iota).
    split; reflexivity.
Qed.

(** X7: a document whose rss (or rdf:RDF) root holds a truthy value (the
    element is not empty: it has attributes, text or children) but no
    channel is not refused as a bad request: reading the title of the
    missing channel throws a TypeError, which the outer catch logs and
    reports as Unauthorized; the store is left as it was.  (An rss element
    that is empty parses to the empty text and is not such a root.) *)
Theorem X7_rss_without_channel (w : World) (url uid : string) (s : Sys)
    (response : Response) (roots : list (string * JsVal)) :
  new_feed_path w url s ->
  axios_get w url = inr response ->
  isXML (content_type response) = true ->
  parse w (data response) = inr (JObj roots) ->
  root_truthy roots "rss" || root_truthy roots "rdf:RDF" = true ->
  nullish (field (if root_truthy roots "rss"
                  then lookup "rss" roots
                  else lookup "rdf:RDF" roots) "channel") = true ->
  addDiscoverFeedResolver w url uid s
  = (inr (AddDiscoverFeedError [Unauthorized]),
     mkSys (store s)
           (parsed s url response ++ [EvLogError log_message TypeError])).
Proof.
  intros (Hconnect & Hselect & Hrows) Hget Hxml Hparse Hroot Hchannel.
  destruct (rss_root_dispatch url roots Hroot) as [Hfeedroot Hextract].
  rewrite (extractRssData_no_channel url _ Hchannel) in Hextract.
  unfold parsed, fetched. destruct s as [st tr]. cbn [store trace] in *.
  unfold_run.
  rewrite Hconnect, Hselect, Hrows, Hget, Hxml, Hparse, Hfeedroot, Hextract.
  cbn [map negb]. flatten_trace. reflexivity.
Qed.

(** An rss element that carries only its version attribute. *)
Lemma X7_rss_without_channel_witness :
  let resp := Sample.xml_response "<rss version='2.0'></rss>" in
  let w := Sample.calm resp Sample.channelless_tree in
  addDiscoverFeedResolver w Sample.url Sample.uid Sample.empty
  = (inr (AddDiscoverFeedError [Unauthorized]),
     mkSys (mkStore [] [])
           [EvConnect; EvQuery (SelectFeedIdByLink (JStr Sample.url));
            EvGet Sample.url; EvParse "<rss version='2.0'></rss>";
            EvLogError log_message TypeError]).
Proof.
  cbv zeta.
  rewrite (X7_rss_without_channel
             (Sample.calm (Sample.xml_response "<rss version='2.0'></rss>")
                          Sample.channelless_tree)
             Sample.url Sample.uid Sample.empty
             (Sample.xml_response "<rss version='2.0'></rss>")
             [("rss", JObj [("@_version", JStr "2.0")])]).
  - reflexivity.
  - repeat split; reflexivity.
  - reflexivity.
  - reflexivity.
  - reflexivity.
  - reflexivity.
  - reflexivity.
Defined.

(** ** The extracted record *)

Section RecordFacts.

Lemma coalesce_text_not_nullish (a : JsVal) (x : string) :
  nullish (coalesce a (JStr x)) = false.
Proof. unfold coalesce. destruct (nullish a) eqn:E; [reflexivity | exact E]. Qed.

Lemma extractAtomData_fields (url : string) (v feed : JsVal) :
  extractAtomData url v = inr feed ->
  exists d t i,
    feed = metadata d t i url "atom" /\ nullish d = false /\ nullish t = false.
Proof.
  unfold extractAtomData, ebind.
  destruct (get v "subtitle") as [|sub]; [discriminate|].
  destruct (get v "title") as [|t]; [discriminate|].
  destruct (get v "icon") as [|ic]; [discriminate|].
  intros H. inversion H. do 3 eexists.
  split; [reflexivity|]. split; apply coalesce_text_not_nullish.
Qed.

Lemma extractRssData_fields (url : string) (v feed : JsVal) :
  extractRssData url v = inr feed ->
  exists d t i,
    feed = metadata d t i url "rss" /\ nullish d = false /\ nullish t = false.
Proof.
  unfold extractRssData, ebind.
  destruct (get v "channel") as [|ch]; [discriminate|].
  destruct (opt_get ch "description") as [|d]; [discriminate|].
  destruct (get ch "title") as [|t]; [discriminate|].
  destruct (get v "image") as [|im]; [discriminate|].
  destruct (opt_get im "url") as [|u]; [discriminate|].
  intros H. inversion H. do 3 eexists.
  split; [reflexivity|]. split; apply coalesce_text_not_nullish.
Qed.

Lemma extractFeed_cases (url : string) (parsedFeed feed : JsVal) :
  extractFeed url parsedFeed = inr feed ->
  (exists v, extractRssData url v = inr feed)
  \/ (exists v, extractAtomData url v = inr feed).
Proof.
  unfold extractFeed, ebind, js_or.
  destruct (opt_get parsedFeed "rss") as [|rss]; [discriminate|].
  destruct (truthy rss) eqn:Hrss.
  - rewrite Hrss.
    destruct (get parsedFeed "rss") as [|rss']; [discriminate|].
    destruct (truthy rss'); [eauto|].
    destruct (get parsedFeed "rdf:RDF") as [|rdf]; [discriminate|]. eauto.
  - destruct (get parsedFeed "rdf:RDF") as [|rdf]; [discriminate|].
    destruct (truthy rdf) eqn:Hrdf.
    + destruct (get parsedFeed "rss") as [|rss']; [discriminate|].
      destruct (truthy rss'); eauto.
    + destruct (get parsedFeed "feed") as [|fd]; [discriminate|]. eauto.
Qed.

End RecordFacts.

(** X8: whatever the parsed document, a record that comes out of the
    extraction has exactly the five fields; its link is the requested URL,
    its type is rss or atom, and neither its title nor its description is
    undefined or null (a missing title became the URL, a missing description
    the empty text). *)
Theorem X8_extracted_record (url : string) (parsedFeed feed : JsVal) :
  extractFeed url parsedFeed = inr feed ->
  exists description title image type,
    feed = metadata description title image url type
    /\ nullish description = false
    /\ nullish title = false
    /\ (type = "rss" \/ type = "atom").
Proof.
  intros H. destruct (extractFeed_cases _ _ _ H) as [[v Hv] | [v Hv]].
  - destruct (extractRssData_fields _ _ _ Hv) as (d & t & i & -> & Hd & Ht).
    exists d, t, i, "rss". auto.
  - destruct (extractAtomData_fields _ _ _ Hv) as (d & t & i & -> & Hd & Ht).
    exists d, t, i, "atom". auto.
Qed.

(** An Atom document with neither title nor icon. *)
Lemma X8_extracted_record_witness :
  exists description title image type,
    metadata (JStr "Notes") (JStr Sample.url) JUndefined Sample.url "atom"
    = metadata description title image Sample.url type
    /\ nullish description = false
    /\ nullish title = false
    /\ (type = "rss" \/ type = "atom").
Proof.
  exact (X8_extracted_record Sample.url Sample.titleless_atom_tree
           (metadata (JStr "Notes") (JStr Sample.url) JUndefined Sample.url "atom")
           eq_refl).
Defined.

(** ** The content-type check, both ways *)

Lemma isXML_accepted (ct : string) :
  isXML (Some ct) = existsb (fun needle => includes needle ct) accepted_content_types.
Proof.
  unfold isXML, accepted_content_types. cbn [existsb].
  rewrite orb_false_r, orb_assoc. reflexivity.
Qed.

(** X9: on the new-feed path the body is parsed exactly when the declared
    content type contains one of text/rss+xml, text/atom+xml and
    application/xml, anywhere in it (so parameters such as a charset do not
    matter).  A response that declares no content type, or one that contains
    none of the three (text/xml and application/rss+xml among them), is
    answered with BadRequest straight after the fetch. *)
Theorem X9_body_parsed_iff_accepted (w : World) (url uid : string) (s : Sys)
    (response : Response) :
  new_feed_path w url s ->
  axios_get w url = inr response ->
  (forall needle before after out s',
      In needle accepted_content_types ->
      content_type response = Some (before ++ needle ++ after)%string ->
      addDiscoverFeedResolver w url uid s = (out, s') ->
      exists rest, trace s' = parsed s url response ++ rest)
  /\ ((content_type response = None
       \/ exists ct, content_type response = Some ct
                     /\ forall needle, In needle accepted_content_types ->
                                       includes needle ct = false) ->
      addDiscoverFeedResolver w url uid s
      = (inr (AddDiscoverFeedError [BadRequest]), mkSys (store s) (fetched s url))).
Proof.
  intros (Hconnect & Hselect & Hrows) Hget. split.
  - intros needle before after out s' Hin Hct.
    assert (Hxml : isXML (content_type response) = true).
    { rewrite Hct, isXML_accepted. apply existsb_exists. exists needle.
      split; [exact Hin|]. apply includes_split. eauto. }
    unfold parsed, fetched. destruct s as [st tr]. cbn [store trace] in *.
    unfold_run. rewrite Hconnect, Hselect, Hrows, Hget, Hxml. cbn [map negb].
    repeat case_step; intros H; inversion H; subst; cbn [trace];
      eexists; flatten_trace; reflexivity.
  - intros Hct.
    assert (Hxml : isXML (content_type response) = false).
    { destruct Hct as [-> | (ct & -> & Hnone)]; [reflexivity|].
      rewrite isXML_accepted. cbn [existsb accepted_content_types].
      rewrite !Hnone; cbn; auto. }
    unfold fetched. destruct s as [st tr]. cbn [store trace] in *.
    unfold_run. rewrite Hconnect, Hselect, Hrows, Hget, Hxml. cbn [map negb].
    flatten_trace. reflexivity.
Qed.

(** application/xml with a charset is parsed; application/rss+xml is not. *)
Lemma X9_body_parsed_iff_accepted_witness :
  let body := Sample.daily_xml in
  let charset := mkResponse body (Some "application/xml; charset=utf-8") in
  let rss := mkResponse body (Some "application/rss+xml") in
  (exists rest,
      trace (snd (addDiscoverFeedResolver (Sample.calm charset Sample.daily_tree)
                    Sample.url Sample.uid Sample.empty))
      = parsed Sample.empty Sample.url charset ++ rest)
  /\ addDiscoverFeedResolver (Sample.calm rss Sample.daily_tree)
       Sample.url Sample.uid Sample.empty
     = (inr (AddDiscoverFeedError [BadRequest]),
        mkSys (mkStore [] []) (fetched Sample.empty Sample.url)).
Proof.
  cbv zeta. split.
  - refine (proj1 (X9_body_parsed_iff_accepted
                     (Sample.calm
                        (mkResponse Sample.daily_xml
                                    (Some "application/xml; charset=utf-8"))
                        Sample.daily_tree)
                     Sample.url Sample.uid Sample.empty
                     (mkResponse Sample.daily_xml
                                 (Some "application/xml; charset=utf-8"))
                     _ eq_refl)
                  "application/xml" "" "; charset=utf-8" _ _ _ eq_refl eq_refl).
    + repeat split; reflexivity.
    + cbn. auto.
  - refine (proj2 (X9_body_parsed_iff_accepted
                     (Sample.calm
                        (mkResponse Sample.daily_xml (Some "application/rss+xml"))
                        Sample.daily_tree)
                     Sample.url Sample.uid Sample.empty
                     (mkResponse Sample.daily_xml (Some "application/rss+xml"))
                     _ eq_refl) _).
    + repeat split; reflexivity.
    + right. exists "application/rss+xml". split; [reflexivity|].
      intros needle [<- | [<- | [<- | []]]]; reflexivity.
Defined.

(** ** Joining a known feed, in general *)

Section JoinFacts.

Variable w : World.
Variables url uid : string.

(** While the store answers, joining a known feed returns the first row of
    the lookup and appends the caller's subscription. *)
Lemma existing_path_run (s : Sys) (r0 : FeedRow) (rest : list FeedRow) :
  calm_store w ->
  feeds_with_link (JStr url) (store s) = r0 :: rest ->
  addDiscoverFeedResolver w url uid s
  = (inr (AddDiscoverFeedSuccess (JObj (id_row r0))),
     mkSys (with_subscription (store s) (fr_id r0) (JStr uid))
           (trace s
              ++ [EvConnect;
                  EvQuery (SelectFeedIdByLink (JStr url));
                  EvQuery (SelectSubscription (JStr uid) (fr_id r0));
                  EvQuery (InsertSubscription (fr_id r0) (JStr uid))])).
Proof.
  intros (Hconnect & Hquery & _) Hrows.
  unfold with_subscription. destruct s as [st tr]. cbn [store trace] in *.
  unfold_run. rewrite Hconnect, Hquery, Hrows. cbn [map id_row].
  cbn. rewrite !Hquery, array_gt_one_false. cbn. rewrite Hquery.
  flatten_trace. reflexivity.
Qed.

(** A success on the new-feed path, in full. *)
Lemma new_feed_success_state (s s' : Sys) (feed : JsVal) :
  feeds_with_link (JStr url) (store s) = [] ->
  addDiscoverFeedResolver w url uid s = (inr (AddDiscoverFeedSuccess feed), s') ->
  exists d t i ty,
    feed = feed_with_id w d t i url ty
    /\ store s'
       = with_subscription (with_feed_row (store s) (feed_row_of w d t i url ty))
                           (JStr (v4 w)) (JStr uid).
Proof.
  destruct s as [st tr]. cbn [store trace]. intros Hnone.
  run_cases; intros H; inversion H; subst; cbn [store]; try congruence.
  reveal_feed. inject_reads. do 4 eexists. split; reflexivity.
Qed.

End JoinFacts.

(** X10: while a call finds the URL in the Feed table, it talks to the
    store and the logger only: whatever the collaborators do, the events it
    adds are the connection, the two SELECTs, the subscription INSERT and
    the error log; there is no fetch, no parse, no Feed INSERT, no release
    and no published event, and the Feed table is left as it was. *)
Theorem X10_join_stays_in_store (w : World) (url uid : string) (s s' : Sys)
    (out : Exn + Result) (r0 : FeedRow) (rest : list FeedRow) :
  feeds_with_link (JStr url) (store s) = r0 :: rest ->
  addDiscoverFeedResolver w url uid s = (out, s') ->
  discover_feed (store s') = discover_feed (store s)
  /\ exists events,
       trace s' = trace s ++ events
       /\ Forall (fun ev => join_event ev = true) events.
Proof.
  destruct s as [st tr]. cbn [store trace]. intros Hrows.
  run_cases; intros H; inversion H; subst; cbn [store trace discover_feed];
    try congruence;
    (split; [reflexivity|]); flatten_trace;
    eexists; (split; [reflexivity | repeat constructor]).
Qed.

(** Joining the known sample feed: four events, all of them store calls. *)
Lemma X10_join_stays_in_store_witness :
  let w := Sample.calm (Sample.xml_response Sample.daily_xml) Sample.daily_tree in
  let out := addDiscoverFeedResolver w Sample.url Sample.uid Sample.known in
  discover_feed (store (snd out)) = [Sample.daily_row]
  /\ exists events,
       trace (snd out) = trace Sample.known ++ events
       /\ Forall (fun ev => join_event ev = true) events.
Proof.
  cbv zeta.
  exact (X10_join_stays_in_store
           (Sample.calm (Sample.xml_response Sample.daily_xml) Sample.daily_tree)
           Sample.url Sample.uid Sample.known _ _ Sample.daily_row []
           eq_refl eq_refl).
Defined.

(** ** When the connection is released *)

(** X11: a call that released the connection took the new-feed path and had
    both rows inserted before: the store it leaves holds the new Feed row
    for the URL under the generated id and the caller's subscription to it.
    No other exit of the resolver releases the connection. *)
Theorem X11_release_means_committed (w : World) (url uid : string)
    (s s' : Sys) (out : Exn + Result) :
  addDiscoverFeedResolver w url uid s = (out, s') ->
  ~ In EvRelease (trace s) ->
  In EvRelease (trace s') ->
  feeds_with_link (JStr url) (store s) = []
  /\ exists row,
       fr_id row = JStr (v4 w)
       /\ fr_link row = JStr url
       /\ store s'
          = with_subscription (with_feed_row (store s) row)
                              (JStr (v4 w)) (JStr uid).
Proof.
  destruct s as [st tr]. cbn [store trace]. unfold with_subscription, with_feed_row.
  run_cases; intros H Hfresh Hin; inversion H; subst; cbn [trace store] in *;
    rewrite ?in_app_iff in *; cbn [In] in *;
    try solve [exfalso; intuition discriminate];
    (split; [reflexivity|]); reveal_feed; inject_reads;
    eexists; refine (conj _ (conj _ eq_refl)); reflexivity.
Qed.

(** The sample discovery releases, with both rows in place. *)
Lemma X11_release_means_committed_witness :
  let w := Sample.calm (Sample.xml_response Sample.daily_xml) Sample.daily_tree in
  let out := addDiscoverFeedResolver w Sample.url Sample.uid Sample.empty in
  In EvRelease (trace (snd out))
  /\ exists row,
       fr_id row = JStr "feed-1"
       /\ fr_link row = JStr Sample.url
       /\ store (snd out)
          = with_subscription (with_feed_row (store Sample.empty) row)
                              (JStr "feed-1") (JStr Sample.uid).
Proof.
  cbv zeta.
  assert (Hin : In EvRelease
                  (trace (snd (addDiscoverFeedResolver
                                 (Sample.calm (Sample.xml_response Sample.daily_xml)
                                              Sample.daily_tree)
                                 Sample.url Sample.uid Sample.empty))))
    by (cbn; tauto).
  split; [exact Hin|].
  refine (proj2 (X11_release_means_committed
                   (Sample.calm (Sample.xml_response Sample.daily_xml)
                                Sample.daily_tree)
                   Sample.url Sample.uid Sample.empty _ _ eq_refl _ Hin)).
  cbn. tauto.
Defined.

(** ** Unauthorized and the error log *)

Ltac logged_eq :=
  unfold logged; rewrite ?filter_app; cbn [filter is_log app];
  rewrite ?app_nil_r; try reflexivity.

(** The [try] block itself never logs and never returns Unauthorized. *)
Lemma resolverBody_silent (w : World) (url uid : string) (s s1 : Sys)
    (out : Exn + Result) :
  resolverBody w url uid s = (out, s1) ->
  logged (trace s1) = logged (trace s)
  /\ out <> inr (AddDiscoverFeedError [Unauthorized]).
Proof.
  destruct s as [st tr]. cbn [store trace].
  run_cases; intros H; inversion H; subst; cbn [trace];
    (split; [logged_eq | discriminate]).
Qed.

(** X12: Unauthorized is returned exactly when something threw inside the
    [try] block, and then that exception is the one error logged by the
    call; a call that returns anything else logs nothing. *)
Theorem X12_unauthorized_iff_thrown (w : World) (url uid : string)
    (s s' : Sys) (r : Result) :
  addDiscoverFeedResolver w url uid s = (inr r, s') ->
  (r = AddDiscoverFeedError [Unauthorized]
   /\ exists e s1,
        resolverBody w url uid s = (inl e, s1)
        /\ logged (trace s') = logged (trace s) ++ [EvLogError log_message e])
  \/ (r <> AddDiscoverFeedError [Unauthorized]
      /\ resolverBody w url uid s = (inr r, s')
      /\ logged (trace s') = logged (trace s)).
Proof.
  intros Hcall.
  destruct (resolverBody w url uid s) as [[e | r1] s1] eqn:Hbody;
    destruct (resolverBody_silent _ _ _ _ _ _ Hbody) as [Hlog Hout].
  - rewrite (resolver_catches _ _ _ _ _ _ Hbody) in Hcall.
    inversion Hcall; subst. left. split; [reflexivity|].
    exists e, s1. split; [reflexivity|].
    cbn [trace]. unfold logged in *. rewrite filter_app, Hlog. reflexivity.
  - rewrite (resolver_returns _ _ _ _ _ _ Hbody) in Hcall.
    inversion Hcall; subst. right.
    split; [congruence|]. split; [reflexivity | exact Hlog].
Qed.

(** No connection to be had: Unauthorized, and the pool's exception logged. *)
Lemma X12_unauthorized_iff_thrown_witness :
  let w := Sample.no_connection (Sample.xml_response Sample.daily_xml)
                                Sample.daily_tree in
  let out := addDiscoverFeedResolver w Sample.url Sample.uid Sample.empty in
  fst out = inr (AddDiscoverFeedError [Unauthorized])
  /\ logged (trace (snd out)) = [EvLogError log_message (External "pool")].
Proof.
  cbv zeta. split; [reflexivity|].
  destruct (X12_unauthorized_iff_thrown
              (Sample.no_connection (Sample.xml_response Sample.daily_xml)
                                    Sample.daily_tree)
              Sample.url Sample.uid Sample.empty _
              (AddDiscoverFeedError [Unauthorized]) eq_refl)
    as [(_ & e & s1 & Hbody & Hlog) | (Hneq & _)].
  - inversion Hbody; subst. exact Hlog.
  - now elim Hneq.
Defined.

(** ** Discovering, then joining *)

Lemma feeds_with_link_new_row (url : string) (st : Store) (row : FeedRow) :
  feeds_with_link (JStr url) st = [] ->
  fr_link row = JStr url ->
  feeds_with_link (JStr url) (with_feed_row st row) = [row].
Proof.
  unfold feeds_with_link, with_feed_row. cbn [discover_feed].
  intros Hnone Hlink. rewrite filter_app, Hnone. cbn [filter app].
  rewrite Hlink. cbn [text_eq]. rewrite String.eqb_refl. reflexivity.
Qed.

(** X13: once a user has discovered a new URL, the next call for that URL,
    by any user and while the store answers, takes the existing-feed path
    and returns the id generated by the discovery (the id the first caller
    received).  Afterwards the Feed table holds one row for the URL and the
    subscription table has gained one row per caller, both on that id. *)
Theorem X13_discover_then_join (w1 w2 : World) (url uid1 uid2 : string)
    (s s1 : Sys) (feed : JsVal) :
  feeds_with_link (JStr url) (store s) = [] ->
  addDiscoverFeedResolver w1 url uid1 s = (inr (AddDiscoverFeedSuccess feed), s1) ->
  calm_store w2 ->
  get feed "id" = inr (JStr (v4 w1))
  /\ exists s2,
       addDiscoverFeedResolver w2 url uid2 s1
       = (inr (AddDiscoverFeedSuccess (JObj [("id", JStr (v4 w1))])), s2)
       /\ feed_rows url (store s2) = 1
       /\ discover_feed_subscription (store s2)
          = discover_feed_subscription (store s)
              ++ [mkSubscriptionRow (JStr (v4 w1)) (JStr uid1);
                  mkSubscriptionRow (JStr (v4 w1)) (JStr uid2)].
Proof.
  intros Hnone Hfirst Hcalm.
  destruct (new_feed_success_state _ _ _ _ _ _ Hnone Hfirst)
    as (d & t & i & ty & -> & Hstore).
  split; [reflexivity|].
  assert (Hrows : feeds_with_link (JStr url) (store s1)
                  = [feed_row_of w1 d t i url ty]).
  { rewrite Hstore. unfold with_subscription, feeds_with_link.
    cbn [discover_feed].
    apply (feeds_with_link_new_row url (store s)); [exact Hnone | reflexivity]. }
  eexists. split; [apply (existing_path_run w2 url uid2 s1 _ [] Hcalm Hrows)|].
  cbn [store]. split.
  - unfold feed_rows, with_subscription, feeds_with_link in *.
    cbn [discover_feed]. rewrite Hrows. reflexivity.
  - rewrite Hstore. unfold with_subscription, with_feed_row.
    cbn [discover_feed_subscription discover_feed fr_id feed_row_of].
    rewrite <- app_assoc. reflexivity.
Qed.

(** The sample link discovered by one user and joined by another. *)
Lemma X13_discover_then_join_witness :
  let w := Sample.calm (Sample.xml_response Sample.daily_xml) Sample.daily_tree in
  let s1 := snd (addDiscoverFeedResolver w Sample.url Sample.uid Sample.empty) in
  exists s2,
    addDiscoverFeedResolver w Sample.url "user-2" s1
    = (inr (AddDiscoverFeedSuccess (JObj [("id", JStr "feed-1")])), s2)
    /\ feed_rows Sample.url (store s2) = 1
    /\ discover_feed_subscription (store s2)
       = [mkSubscriptionRow (JStr "feed-1") (JStr Sample.uid);
          mkSubscriptionRow (JStr "feed-1") (JStr "user-2")].
Proof.
  cbv zeta.
  refine (proj2 (X13_discover_then_join
                   (Sample.calm (Sample.xml_response Sample.daily_xml)
                                Sample.daily_tree)
                   (Sample.calm (Sample.xml_response Sample.daily_xml)
                                Sample.daily_tree)
                   Sample.url Sample.uid "user-2" Sample.empty _
                   Sample.daily_feed eq_refl eq_refl _)).
  repeat split; reflexivity.
Defined.

(** ** Joining again and again *)

(** X14: nothing stops a user from joining a known feed repeatedly: while
    the store answers, n calls in a row append n identical subscription rows
    for the caller (none is refused, none is merged) and leave the Feed
    table as it was. *)
Theorem X14_repeated_joins_accumulate (w : World) (url uid : string) (n : nat)
    (s : Sys) (r0 : FeedRow) (rest : list FeedRow) :
  calm_store w ->
  feeds_with_link (JStr url) (store s) = r0 :: rest ->
  store (run_calls (repeat (mkCall w url uid) n) s)
  = mkStore (discover_feed (store s))
            (discover_feed_subscription (store s)
               ++ repeat (mkSubscriptionRow (fr_id r0) (JStr uid)) n).
Proof.
  intros Hcalm. revert s.
  induction n as [|n IH]; intros s Hrows.
  - cbn [repeat run_calls]. rewrite app_nil_r. destruct s as [[fs ss] tr].
    reflexivity.
  - cbn [repeat run_calls]. unfold run_call. cbn [call_world call_url call_uid].
    rewrite (existing_path_run w url uid s r0 rest Hcalm Hrows). cbn [snd].
    rewrite IH by exact Hrows.
    unfold with_subscription.
    cbn [store discover_feed discover_feed_subscription].
    rewrite <- app_assoc. reflexivity.
Qed.

(** Three joins of the known sample feed: three rows. *)
Lemma X14_repeated_joins_accumulate_witness :
  let w := Sample.calm (Sample.xml_response Sample.daily_xml) Sample.daily_tree in
  store (run_calls (repeat (mkCall w Sample.url Sample.uid) 3) Sample.known)
  = mkStore [Sample.daily_row]
            [Sample.subscription; Sample.subscription; Sample.subscription].
Proof.
  cbv zeta.
  rewrite (X14_repeated_joins_accumulate
             (Sample.calm (Sample.xml_response Sample.daily_xml) Sample.daily_tree)
             Sample.url Sample.uid 3 Sample.known Sample.daily_row []).
  - reflexivity.
  - repeat split; reflexivity.
  - reflexivity.
Defined.
